(** * A banking API: the ledger core of [app/routes], embedded and verified

    The program is a Flask service over a relational store.  Each route
    handler of [app/routes/*.py] is embedded as a function from the
    request (the authenticated user, the JSON body, the clock reading)
    and the database to a response and the database after the request.
    A handler that returns without [db.session.commit()] leaves the
    database as it found it: the session of a request is discarded at
    the end of the request.

    Conventions of the embedding.
    - Money ([db.Numeric(10, 2)], a [decimal.Decimal] once loaded) is an
      integer number of hundredths.  A JSON number that a handler only
      compares and stores is read as such an exact amount; the rounding
      of the store and the precision bound of the column are outside
      this development.  Where the ORM compares the number of the body
      with a loaded [Decimal], the float the number is counts
      ([same_decimal]).  The amount of a transfer enters arithmetic with
      a [Decimal], so it keeps its Python type: an [int], or a [float]
      with its exact value.
    - A commit is described where the store accepts it.  A commit the
      store refuses (a value a column cannot hold, a text it does not
      read as a date, a row another row refers to) ends the request in
      an exception and leaves the database as it was.  A date column is
      given the text of the request and keeps the day [strptime] reads
      from it.
    - Primary keys and user identities are integers ([Z]).
    - Text is [string]; a character is read as a code point below 256.
    - A table with an integer primary key whose rows can be deleted is a
      finite map from the key to the row; the other tables are lists in
      insertion order.
    - Text comparisons of the store are exact equality. *)

From Stdlib Require Import ZArith QArith Ascii String List Lia Bool.
From stdpp Require Import base option list gmap strings fin_maps.

Local Open Scope Z_scope.

(** ** Python values that reach the handlers *)

(** Exceptions the handlers can meet. *)
Inductive exn : Set :=
  | ValueError
  | TypeError
  | NoForeignKeysError
  | AmbiguousForeignKeysError.

(** A JSON number as Python reads it: an [int], or a [float], which is a
    rational with a power of two as denominator. *)
Inductive number : Set :=
  | PyInt (n : Z)
  | PyFloat (q : Q).

(** The [Decimal] of an [int], in hundredths. *)
Definition hundredths (n : Z) : Z := 100 * n.

(** [amount <= 0] *)
Definition le_zero (amount : number) : bool :=
  match amount with
  | PyInt n => n <=? 0
  | PyFloat q => Qle_bool q 0
  end.

(** [balance < amount] for a [Decimal] balance: Python compares a
    [Decimal] with an [int] and with a [float] by their exact values. *)
Definition decimal_lt (balance : Z) (amount : number) : bool :=
  match amount with
  | PyInt n => balance <? hundredths n
  | PyFloat q => negb (Qle_bool q (Qmake balance 100))
  end.

(** ** [datetime] *)

Module date.
(** A calendar date, as a [db.Date] column hands it back. *)
Record t : Set := mk { year : Z; month : Z; day : Z }.

#[global] Instance eq_dec : EqDecision t.
Proof. solve_decision. Defined.
End date.

Module datetime.
(** A naive [datetime.datetime]. *)
Record t : Set := mk {
  year : Z; month : Z; day : Z;
  hour : Z; minute : Z; second : Z; microsecond : Z
}.

#[global] Instance eq_dec : EqDecision t.
Proof. solve_decision. Defined.

Definition lex (c1 c2 : comparison) : comparison :=
  match c1 with Eq => c2 | _ => c1 end.

(** Naive datetimes compare field by field. *)
Definition compare (a b : t) : comparison :=
  lex (year a ?= year b)
    (lex (month a ?= month b)
       (lex (day a ?= day b)
          (lex (hour a ?= hour b)
             (lex (minute a ?= minute b)
                (lex (second a ?= second b)
                   (microsecond a ?= microsecond b)))))).

(** [a < b] *)
Definition ltb (a b : t) : bool :=
  match compare a b with Lt => true | _ => false end.

(** [a > b] *)
Definition gtb (a b : t) : bool := ltb b a.

(** [a <= b] and [a >= b] *)
Definition leb (a b : t) : bool := negb (ltb b a).
Definition geb (a b : t) : bool := negb (ltb a b).

Definition date (a : t) : date.t := date.mk (year a) (month a) (day a).

Definition digit_val (c : ascii) : option Z :=
  let n := Z.of_N (N_of_ascii c) in
  if (48 <=? n) && (n <=? 57) then Some (n - 48) else None.

Definition is_leap (y : Z) : bool :=
  (y mod 4 =? 0) && (negb (y mod 100 =? 0) || (y mod 400 =? 0)).

Definition days_in_month (y m : Z) : Z :=
  if m =? 2 then (if is_leap y then 29 else 28)
  else if (m =? 4) || (m =? 6) || (m =? 9) || (m =? 11) then 30
  else 31.

(** The directive [%Y]: four digits. *)
Definition year_field (a b c d : ascii) : option Z :=
  y1 ← digit_val a; y2 ← digit_val b; y3 ← digit_val c; y4 ← digit_val d;
  Some (1000 * y1 + 100 * y2 + 10 * y3 + y4).

(** The directive [%m]: [1[0-2]|0[1-9]|[1-9]]. *)
Definition month_field (tok : list ascii) : option Z :=
  match tok with
  | [a] => x ← digit_val a; if 1 <=? x then Some x else None
  | [a; b] =>
      x ← digit_val a; y ← digit_val b;
      if (x =? 1) && (y <=? 2) then Some (10 + y)
      else if (x =? 0) && (1 <=? y) then Some y
      else None
  | _ => None
  end.

(** The directive [%d]: [3[0-1]|[1-2]\d|0[1-9]|[1-9]| [1-9]]. *)
Definition day_field (tok : list ascii) : option Z :=
  match tok with
  | [a] => x ← digit_val a; if 1 <=? x then Some x else None
  | [a; b] =>
      if Ascii.eqb a " " then
        y ← digit_val b; if 1 <=? y then Some y else None
      else
        x ← digit_val a; y ← digit_val b;
        if (x =? 3) && (y <=? 1) then Some (30 + y)
        else if (1 <=? x) && (x <=? 2) then Some (10 * x + y)
        else if (x =? 0) && (1 <=? y) then Some y
        else None
  | _ => None
  end.

(** The three fields of a text in the format [%Y-%m-%d]. *)
Definition fields (s : string) : option (Z * Z * Z) :=
  match s with
  | String y1 (String y2 (String y3 (String y4 (String "-" rest)))) =>
      y ← year_field y1 y2 y3 y4;
      match rest with
      | String m1 (String "-" drest) =>
          m ← month_field [m1];
          d ← day_field (list_ascii_of_string drest);
          Some (y, m, d)
      | String m1 (String m2 (String "-" drest)) =>
          m ← month_field [m1; m2];
          d ← day_field (list_ascii_of_string drest);
          Some (y, m, d)
      | _ => None
      end
  | _ => None
  end.

(** [datetime.strptime(s, '%Y-%m-%d')] on a text: midnight of the day
    the text names, or [None] where Python raises [ValueError] (the
    text does not match the format, or names no day of the calendar). *)
Definition strptime_str (s : string) : option t :=
  '(y, m, d) ← fields s;
  if (1 <=? y) && (d <=? days_in_month y m)
  then Some (mk y m d 0 0 0 0)
  else None.
End datetime.

(** What a handler may pass to [datetime.strptime]: the text of a request
    body, or the [datetime.date] object an attribute of a loaded row holds. *)
Inductive pyobj : Set :=
  | PyStr (s : string)
  | PyDate (d : date.t).

(** [datetime.strptime(v, '%Y-%m-%d')]: the first argument must be a
    [str]; anything else raises [TypeError]. *)
Definition strptime (v : pyobj) : exn + datetime.t :=
  match v with
  | PyStr s =>
      match datetime.strptime_str s with
      | Some d => inr d
      | None => inl ValueError
      end
  | PyDate _ => inl TypeError
  end.

(** ** [app/models.py] *)

Module Account.
Record t : Set := mk {
  user_id : Z;
  account_type : string;
  account_number : string;
  balance : Z;
  created_at : datetime.t;
  updated_at : datetime.t
}.

#[global] Instance eq_dec : EqDecision t.
Proof. solve_decision. Defined.

Definition set_account_type (v : string) (a : t) : t :=
  mk (user_id a) v (account_number a) (balance a) (created_at a) (updated_at a).

Definition set_balance (v : Z) (a : t) : t :=
  mk (user_id a) (account_type a) (account_number a) v (created_at a) (updated_at a).

Definition set_updated_at (v : datetime.t) (a : t) : t :=
  mk (user_id a) (account_type a) (account_number a) (balance a) (created_at a) v.

(** [onupdate=datetime.utcnow]: a row that is written by a commit gets
    the time of the commit; a row whose attributes all kept their
    values is not written. *)
Definition onupdate (utcnow : datetime.t) (loaded current : t) : t :=
  if decide (current = loaded) then current else set_updated_at utcnow current.

(** The commit of a row some attribute of which was assigned a value
    that does not compare equal ([==]) to the loaded one, although the
    column may keep the same amount for it: the ORM writes the row, and
    [onupdate] gives it the time of the commit. *)
Definition flush (utcnow : datetime.t) (unequal : bool) (loaded current : t) : t :=
  if unequal then set_updated_at utcnow current else onupdate utcnow loaded current.
End Account.

Module Transaction.
Record t : Set := mk {
  id : Z;
  from_account_id : Z;
  to_account_id : Z;
  amount : Z;
  type : string;
  description : string;
  created_at : datetime.t
}.

#[global] Instance eq_dec : EqDecision t.
Proof. solve_decision. Defined.

(** The columns declared with [db.ForeignKey('account.id')]: the two legs
    of a transfer.  The model declares no [relationship]. *)
Definition account_keys : list (t → Z) := [from_account_id; to_account_id].
End Transaction.

Module Budget.
Record t : Set := mk {
  id : Z;
  user_id : Z;
  name : string;
  amount : Z;
  start_date : date.t;
  end_date : date.t
}.
End Budget.

Module TransactionCategory.
Record t : Set := mk { id : Z; name : string }.
End TransactionCategory.

Module Bill.
Record t : Set := mk {
  user_id : Z;
  biller_name : string;
  due_date : date.t;
  amount : Z;
  account_id : Z
}.

#[global] Instance eq_dec : EqDecision t.
Proof. solve_decision. Defined.
End Bill.

(** The tables.  The rows of [Account] and [Bill] are keyed by their [id]
    column. *)
Record database : Type := mkdb {
  accounts : gmap Z Account.t;
  transactions : list Transaction.t;
  categories : list TransactionCategory.t;
  budgets : list Budget.t;
  bills : gmap Z Bill.t
}.

Definition empty_database : database := mkdb ∅ [] [] [] ∅.

Definition set_accounts (v : gmap Z Account.t) (st : database) : database :=
  mkdb v (transactions st) (categories st) (budgets st) (bills st).

Definition set_bills (v : gmap Z Bill.t) (st : database) : database :=
  mkdb (accounts st) (transactions st) (categories st) (budgets st) v.

(** The next value of an integer primary key: above every key in use. *)
Definition next_key {A} (m : gmap Z A) : Z :=
  1 + foldr Z.max 0 (map_to_list m).*1.

Definition next_row {A} (l : list A) : Z := 1 + Z.of_nat (length l).

(** ** Responses *)

(** The JSON object a handler answers with: [{"error": msg}] or
    [{"message": msg}]. *)
Inductive body : Set :=
  | Error (msg : string)
  | Message (msg : string).

(** What a request ends in: the pair [jsonify(...), status] the handler
    returns (status 200 where the handler names none), or an exception
    nothing catches. *)
Inductive result : Set :=
  | Response (b : body) (status : Z)
  | Raised (e : exn).

#[global] Instance body_eq_dec : EqDecision body.
Proof. solve_decision. Defined.
#[global] Instance exn_eq_dec : EqDecision exn.
Proof. solve_decision. Defined.
#[global] Instance result_eq_dec : EqDecision result.
Proof. solve_decision. Defined.

(** A status of the 2xx class. *)
Definition successful (r : result) : bool :=
  match r with
  | Response _ status => (200 <=? status) && (status <? 300)
  | Raised _ => false
  end.

(** ** Queries shared by the handlers *)

(** [Account.query.filter_by(id=id, user_id=user_id).first()] *)
Definition account_of_user (st : database) (id user_id : Z) : option Account.t :=
  a ← accounts st !! id;
  if decide (Account.user_id a = user_id) then Some a else None.

(** [Account.query.filter_by(account_number=number).first()] *)
Definition account_by_number (st : database) (number : string) : option (Z * Account.t) :=
  head (filter (λ kv, Account.account_number kv.2 = number) (map_to_list (accounts st))).

(** [Bill.query.filter_by(id=id, user_id=user_id).first()] *)
Definition bill_of_user (st : database) (id user_id : Z) : option Bill.t :=
  b ← bills st !! id;
  if decide (Bill.user_id b = user_id) then Some b else None.

(** [TransactionCategory.query.filter_by(name=name).first()] *)
Definition category_by_name (st : database) (name : string) : option TransactionCategory.t :=
  head (filter (λ c, TransactionCategory.name c = name) (categories st)).

(** [query.join(target)] with no ON clause: the ORM takes the clause from
    the foreign keys of the queried table to the target.  One key gives
    the clause; with none, and with more than one, it raises. *)
Definition join_on {A} (foreign_keys : list A) : exn + A :=
  match foreign_keys with
  | [] => inl NoForeignKeysError
  | [key] => inr key
  | _ :: _ :: _ => inl AmbiguousForeignKeysError
  end.

(** ** [str.isdigit] *)

(** A character of the class Python calls a digit: among the code points
    below 256, the ten decimal digits and the superscripts two, three
    and one. *)
Definition isdigit_char (c : ascii) : bool :=
  let n := Z.of_N (N_of_ascii c) in
  ((48 <=? n) && (n <=? 57)) || (n =? 178) || (n =? 179) || (n =? 185).

Fixpoint all_digits (s : string) : bool :=
  match s with
  | EmptyString => true
  | String c rest => isdigit_char c && all_digits rest
  end.

(** [s.isdigit()]: at least one character, and every character a digit. *)
Definition isdigit (s : string) : bool :=
  match s with
  | EmptyString => false
  | _ => all_digits s
  end.

(** What [isdigit] asks of every character of a text. *)
Definition digits_only (s : string) : Prop :=
  ∀ c, c ∈ list_ascii_of_string s → isdigit_char c = true.

(** [len(s)] *)
Definition len (s : string) : Z := Z.of_nat (String.length s).

(** ** [app/routes/accounts.py] *)

Module NewAccount.
(** The body of [POST /accounts]; [balance] is optional. *)
Record t : Set := mk {
  account_type : string;
  account_number : string;
  balance : option Z
}.
End NewAccount.

Definition create_account (user_id : Z) (data : NewAccount.t)
    (utcnow : datetime.t) (st : database) : result * database :=
  if negb (isdigit (NewAccount.account_number data))
     || (len (NewAccount.account_number data) <? 10)
  then (Response (Error "Account number must be at least 10 digits and numeric.") 400, st)
  else
    match account_by_number st (NewAccount.account_number data) with
    | Some _ => (Response (Error "Account number already exists") 400, st)
    | None =>
        let balance := default 0 (NewAccount.balance data) in
        if balance <? 0
        then (Response (Error "Initial balance cannot be negative.") 400, st)
        else
          let account :=
            Account.mk user_id (NewAccount.account_type data)
              (NewAccount.account_number data) balance utcnow utcnow in
          (Response (Message "Account created successfully") 201,
           set_accounts (<[next_key (accounts st) := account]> (accounts st)) st)
    end.

Module AccountPatch.
(** The JSON object of [PUT /accounts/<id>]: both keys are optional;
    [other_keys] says whether the object has any other key. *)
Record t : Set := mk {
  account_type : option string;
  balance : option Z;
  other_keys : bool
}.

(** [not data] for a dict: it has no key at all. *)
Definition is_empty (d : t) : bool :=
  match account_type d, balance d with
  | None, None => negb (other_keys d)
  | _, _ => false
  end.
End AccountPatch.

(** [new_balance == account.balance], by which the ORM decides whether
    the assigned balance is a change.  The loaded balance is a
    [Decimal]; the number of the body is an [int] or a [float], and
    Python compares the two by their exact values.  An [int] is a whole
    number of units.  A [float] is the amount it is written as only
    for a whole number of quarters of a unit (25 hundredths); any other
    amount, such as 0.10 or 19.99, is a float that no [Decimal] of two
    places equals, the one the column keeps for it included. *)
Definition same_decimal (loaded new_balance : Z) : bool :=
  (new_balance =? loaded) && (new_balance mod 25 =? 0).

(** [data] is [None] for a body that is not a JSON object. *)
Definition update_account (id user_id : Z) (data : option AccountPatch.t)
    (utcnow : datetime.t) (st : database) : result * database :=
  match account_of_user st id user_id with
  | None => (Response (Error "Account not found") 404, st)
  | Some loaded =>
      match data with
      | None => (Response (Error "Invalid input") 400, st)
      | Some data =>
          if AccountPatch.is_empty data
          then (Response (Error "Invalid input") 400, st)
          else
            let account :=
              Account.set_account_type
                (default (Account.account_type loaded) (AccountPatch.account_type data))
                loaded in
            let commit unequal account :=
              (Response (Message "Account updated successfully") 200,
               set_accounts
                 (<[id := Account.flush utcnow unequal loaded account]> (accounts st))
                 st) in
            match AccountPatch.balance data with
            | Some new_balance =>
                if new_balance <? 0
                then (Response (Error "Balance cannot be negative.") 400, st)
                else
                  commit (negb (same_decimal (Account.balance loaded) new_balance))
                    (Account.set_balance new_balance account)
            | None => commit false account
            end
      end
  end.

(** The row [update_account] holds when it commits: the loaded row with
    the values of the body in place of its [account_type] and [balance]. *)
Definition patched (data : AccountPatch.t) (loaded : Account.t) : Account.t :=
  Account.mk (Account.user_id loaded)
    (default (Account.account_type loaded) (AccountPatch.account_type data))
    (Account.account_number loaded)
    (default (Account.balance loaded) (AccountPatch.balance data))
    (Account.created_at loaded) (Account.updated_at loaded).

Definition delete_account (id user_id : Z) (st : database) : result * database :=
  match account_of_user st id user_id with
  | None => (Response (Error "Account not found") 404, st)
  | Some _ =>
      (Response (Message "Account deleted successfully") 200,
       set_accounts (delete id (accounts st)) st)
  end.

(** Whether the body of [update_account] assigns a balance that does not
    compare equal to the loaded one. *)
Definition balance_unequal (data : AccountPatch.t) (loaded : Account.t) : bool :=
  match AccountPatch.balance data with
  | Some new_balance => negb (same_decimal (Account.balance loaded) new_balance)
  | None => false
  end.

(** ** [app/routes/transactions.py] *)

Module NewTransaction.
(** The body of [POST /transactions]; [description] is optional. *)
Record t : Set := mk {
  from_account_id : Z;
  to_account_id : Z;
  amount : number;
  type : string;
  description : option string
}.
End NewTransaction.

(** [account.balance -= amount] and [account.balance += amount] on the
    row with the given key, as the commit writes them. *)
Definition debit (utcnow : datetime.t) (amount : Z) (a : Account.t) : Account.t :=
  Account.onupdate utcnow a (Account.set_balance (Account.balance a - amount) a).

Definition credit (utcnow : datetime.t) (amount : Z) (a : Account.t) : Account.t :=
  Account.onupdate utcnow a (Account.set_balance (Account.balance a + amount) a).

(** [from_account.balance -= amount] takes an [int]; for a [float] the
    subtraction of a [Decimal] and a [float] raises [TypeError], before
    anything is added to the session. *)
Definition create_transaction (user_id : Z) (data : NewTransaction.t)
    (utcnow : datetime.t) (st : database) : result * database :=
  match account_of_user st (NewTransaction.from_account_id data) user_id with
  | None => (Response (Error "Unauthorized transaction") 403, st)
  | Some from_account =>
      match accounts st !! NewTransaction.to_account_id data with
      | None => (Response (Error "Recipient account not found") 404, st)
      | Some to_account =>
          let amount := NewTransaction.amount data in
          if le_zero amount
          then (Response (Error "Invalid transaction amount. Amount must be greater than zero.") 400, st)
          else if decimal_lt (Account.balance from_account) amount
          then (Response (Error "Insufficient funds in the source account.") 403, st)
          else if NewTransaction.from_account_id data =? NewTransaction.to_account_id data
          then (Response (Error "Cannot transfer to the same account.") 400, st)
          else
            match amount with
            | PyFloat _ => (Raised TypeError, st)
            | PyInt n =>
                let transaction :=
                  Transaction.mk (next_row (transactions st))
                    (NewTransaction.from_account_id data)
                    (NewTransaction.to_account_id data)
                    (hundredths n)
                    (NewTransaction.type data)
                    (default "" (NewTransaction.description data))
                    utcnow in
                let accounts1 :=
                  alter (debit utcnow (hundredths n))
                    (NewTransaction.from_account_id data) (accounts st) in
                let accounts2 :=
                  alter (credit utcnow (hundredths n))
                    (NewTransaction.to_account_id data) accounts1 in
                (Response (Message "Transaction successful") 201,
                 mkdb accounts2 (transactions st ++ [transaction])
                   (categories st) (budgets st) (bills st))
            end
      end
  end.

(** [Transaction.query.join(Account).filter(Account.user_id == user_id)]
    on a join over [key]: the account of the row is the one [key] names. *)
Definition joined_to_user (key : Transaction.t → Z) (st : database) (user_id : Z)
    (t : Transaction.t) : bool :=
  match accounts st !! key t with
  | Some a => Account.user_id a =? user_id
  | None => false
  end.

(** [if n:] for an [int]: every integer but 0 is true. *)
Definition truthy (n : Z) : bool := negb (n =? 0).

(** The rows of the query [get_transactions] builds, on a join over
    [key].  [account_id] is [request.args.get("account_id", type=int)].
    A date bound is [None] for an absent or empty parameter, and
    otherwise the timestamp the store reads from the text. *)
Definition transactions_query (key : Transaction.t → Z) (user_id : Z)
    (account_id : option Z) (start_date end_date : option datetime.t)
    (st : database) : list Transaction.t :=
  let query := filter (λ t, joined_to_user key st user_id t = true) (transactions st) in
  let query :=
    match account_id with
    | Some id =>
        if truthy id
        then filter (λ t, Transaction.from_account_id t = id) query
        else query
    | None => query
    end in
  let query :=
    match start_date with
    | Some d => filter (λ t, datetime.geb (Transaction.created_at t) d = true) query
    | None => query
    end in
  let query :=
    match end_date with
    | Some d => filter (λ t, datetime.leb (Transaction.created_at t) d = true) query
    | None => query
    end in
  query.

(** [get_transactions]: the exception of the join, or the rows the
    handler renders. *)
Definition get_transactions (user_id : Z) (account_id : option Z)
    (start_date end_date : option datetime.t) (st : database)
    : result + list Transaction.t :=
  match join_on Transaction.account_keys with
  | inl e => inl (Raised e)
  | inr key => inr (transactions_query key user_id account_id start_date end_date st)
  end.

(** ** [app/routes/budgets.py] *)

Module NewBudget.
(** The body of [POST /budgets]. *)
Record t : Set := mk {
  name : string;
  amount : Z;
  start_date : string;
  end_date : string
}.
End NewBudget.

(** The category of the given name, created and committed if no row has
    the name. *)
Definition get_or_create_category (name : string) (st : database)
    : TransactionCategory.t * database :=
  match category_by_name st name with
  | Some category => (category, st)
  | None =>
      let category := TransactionCategory.mk (next_row (categories st)) name in
      (category,
       mkdb (accounts st) (transactions st) (categories st ++ [category])
         (budgets st) (bills st))
  end.

Definition create_budget (user_id : Z) (data : NewBudget.t)
    (now : datetime.t) (st : database) : result * database :=
  let amount := NewBudget.amount data in
  if amount <=? 0
  then (Response (Error "Invalid amount. Amount must be greater than zero.") 400, st)
  else
    let invalid_format := (Response (Error "Invalid date format. Use YYYY-MM-DD.") 400, st) in
    match strptime (PyStr (NewBudget.start_date data)) with
    | inl ValueError => invalid_format
    | inl e => (Raised e, st)
    | inr start_date_obj =>
        match strptime (PyStr (NewBudget.end_date data)) with
        | inl ValueError => invalid_format
        | inl e => (Raised e, st)
        | inr end_date_obj =>
            if datetime.ltb start_date_obj now
            then (Response (Error "Start date must be in the future.") 400, st)
            else if datetime.gtb start_date_obj end_date_obj
            then (Response (Error "Start date cannot be after end date.") 400, st)
            else
              let '(category, st1) := get_or_create_category (NewBudget.name data) st in
              let budget :=
                Budget.mk (next_row (budgets st1)) user_id
                  (TransactionCategory.name category) amount
                  (datetime.date start_date_obj) (datetime.date end_date_obj) in
              (Response (Message "Budget created successfully") 201,
               mkdb (accounts st1) (transactions st1) (categories st1)
                 (budgets st1 ++ [budget]) (bills st1))
        end
    end.

(** ** [app/routes/bills.py] *)

Module NewBill.
(** The body of [POST /bills]. *)
Record t : Set := mk {
  biller_name : string;
  due_date : string;
  amount : Z;
  account_id : Z
}.
End NewBill.

Definition create_bill (user_id : Z) (data : NewBill.t)
    (now : datetime.t) (st : database) : result * database :=
  let amount := NewBill.amount data in
  if amount <=? 0
  then (Response (Error "Invalid amount. Amount must be greater than zero.") 400, st)
  else
    match strptime (PyStr (NewBill.due_date data)) with
    | inl ValueError => (Response (Error "Invalid date format. Use YYYY-MM-DD.") 400, st)
    | inl e => (Raised e, st)
    | inr due_date_obj =>
        if datetime.ltb due_date_obj now
        then (Response (Error "Due date must be in the future.") 400, st)
        else
          match account_of_user st (NewBill.account_id data) user_id with
          | None => (Response (Error "Invalid account ID.") 404, st)
          | Some _ =>
              let bill :=
                Bill.mk user_id (NewBill.biller_name data)
                  (datetime.date due_date_obj) amount (NewBill.account_id data) in
              (Response (Message "Bill scheduled successfully") 201,
               set_bills (<[next_key (bills st) := bill]> (bills st)) st)
          end
    end.

Module BillPatch.
(** The body of [PUT /bills/<id>]: every key is optional. *)
Record t : Set := mk {
  biller_name : option string;
  due_date : option string;
  amount : option Z
}.
End BillPatch.

Definition update_bill (id user_id : Z) (data : BillPatch.t)
    (now : datetime.t) (st : database) : result * database :=
  match bill_of_user st id user_id with
  | None => (Response (Error "Bill not found") 404, st)
  | Some bill =>
      let amount := default (Bill.amount bill) (BillPatch.amount data) in
      if amount <=? 0
      then (Response (Error "Invalid amount. Amount must be greater than zero.") 400, st)
      else
        let due_date :=
          match BillPatch.due_date data with
          | Some s => PyStr s
          | None => PyDate (Bill.due_date bill)
          end in
        match strptime due_date with
        | inl ValueError => (Response (Error "Invalid date format. Use YYYY-MM-DD.") 400, st)
        | inl e => (Raised e, st)
        | inr due_date_obj =>
            if datetime.ltb due_date_obj now
            then (Response (Error "Due date must be in the future.") 400, st)
            else
              let bill' :=
                Bill.mk (Bill.user_id bill)
                  (default (Bill.biller_name bill) (BillPatch.biller_name data))
                  (datetime.date due_date_obj) amount (Bill.account_id bill) in
              (Response (Message "Bill updated successfully") 200,
               set_bills (<[id := bill']> (bills st)) st)
        end
  end.

(** ** The service as a transition system *)

Inductive request : Set :=
  | PostAccount (user_id : Z) (data : NewAccount.t) (utcnow : datetime.t)
  | PutAccount (id user_id : Z) (data : option AccountPatch.t) (utcnow : datetime.t)
  | DeleteAccount (id user_id : Z)
  | PostTransaction (user_id : Z) (data : NewTransaction.t) (utcnow : datetime.t)
  | PostBudget (user_id : Z) (data : NewBudget.t) (now : datetime.t)
  | PostBill (user_id : Z) (data : NewBill.t) (now : datetime.t)
  | PutBill (id user_id : Z) (data : BillPatch.t) (now : datetime.t).

Definition handle (req : request) (st : database) : result * database :=
  match req with
  | PostAccount user_id data utcnow => create_account user_id data utcnow st
  | PutAccount id user_id data utcnow => update_account id user_id data utcnow st
  | DeleteAccount id user_id => delete_account id user_id st
  | PostTransaction user_id data utcnow => create_transaction user_id data utcnow st
  | PostBudget user_id data now => create_budget user_id data now st
  | PostBill user_id data now => create_bill user_id data now st
  | PutBill id user_id data now => update_bill id user_id data now st
  end.

(** The operations of the ledger core: [create_account], [update_account]
    and the transfer. *)
Definition core (req : request) : bool :=
  match req with
  | PostAccount _ _ _ | PutAccount _ _ _ _ | PostTransaction _ _ _ => true
  | _ => false
  end.

(** The states a sequence of successful core operations leads to from
    the empty database. *)
Inductive reachable : database → Prop :=
  | reachable_empty : reachable empty_database
  | reachable_step st req :
      reachable st →
      core req = true →
      successful (handle req st).1 = true →
      reachable (handle req st).2.

(** [run reqs st]: the state after the requests, one after the other. *)
Definition run (reqs : list request) (st : database) : database :=
  fold_left (λ s req, (handle req s).2) reqs st.

(** [numbers_kept st st']: every account of [st'] is in [st] under the
    same key and with the same number. *)
Definition numbers_kept (st st' : database) : Prop :=
  ∀ i a', accounts st' !! i = Some a' →
    ∃ a, accounts st !! i = Some a
         ∧ Account.account_number a' = Account.account_number a.


(** ** The words of the specification *)

Module Spec.
(** The typed errors, as the responses that carry them. *)
Definition UnauthorizedSource : result :=
  Response (Error "Unauthorized transaction") 403.
Definition RecipientNotFound : result :=
  Response (Error "Recipient account not found") 404.
Definition InvalidTransferAmount : result :=
  Response (Error "Invalid transaction amount. Amount must be greater than zero.") 400.
Definition InsufficientFunds : result :=
  Response (Error "Insufficient funds in the source account.") 403.
Definition SameAccountTransfer : result :=
  Response (Error "Cannot transfer to the same account.") 400.
Definition TransferDone : result :=
  Response (Message "Transaction successful") 201.

Definition InvalidAccountNumber : result :=
  Response (Error "Account number must be at least 10 digits and numeric.") 400.
Definition DuplicateAccountNumber : result :=
  Response (Error "Account number already exists") 400.
Definition NegativeInitialBalance : result :=
  Response (Error "Initial balance cannot be negative.") 400.
Definition AccountCreated : result :=
  Response (Message "Account created successfully") 201.

Definition AccountNotFound : result :=
  Response (Error "Account not found") 404.
Definition InvalidInput : result :=
  Response (Error "Invalid input") 400.
Definition NegativeBalance : result :=
  Response (Error "Balance cannot be negative.") 400.
Definition AccountUpdated : result :=
  Response (Message "Account updated successfully") 200.

Definition InvalidAmount : result :=
  Response (Error "Invalid amount. Amount must be greater than zero.") 400.
Definition InvalidDateFormat : result :=
  Response (Error "Invalid date format. Use YYYY-MM-DD.") 400.
Definition BudgetCreated : result :=
  Response (Message "Budget created successfully") 201.

(** [InvalidDateRange] is carried by two messages. *)
Definition InvalidDateRange (r : result) : Prop :=
  r = Response (Error "Start date must be in the future.") 400
  ∨ r = Response (Error "Start date cannot be after end date.") 400.

Definition DueDateNotInFuture : result :=
  Response (Error "Due date must be in the future.") 400.
Definition BillNotFound : result :=
  Response (Error "Bill not found") 404.
Definition BillUpdated : result :=
  Response (Message "Bill updated successfully") 200.

(** [InvalidDueDate]: not in the future, or malformed. *)
Definition InvalidDueDate (r : result) : Prop :=
  r = DueDateNotInFuture ∨ r = InvalidDateFormat.

(** *** The validation order of [execute_transfer] *)




(** Check 3: the amount is above zero. *)
Definition positive (amount : number) : bool :=
  match amount with
  | PyInt n => 0 <? n
  | PyFloat q => negb (Qle_bool q 0)
  end.

(** Check 4: the balance is at least the amount. *)
Definition covers (balance : Z) (amount : number) : bool :=
  match amount with
  | PyInt n => hundredths n <=? balance
  | PyFloat q => Qle_bool q (Qmake balance 100)
  end.



(** *** Account numbers *)

(** The text is numeric: every character is one of the ten decimal
    digits. *)
Definition all_numeric (s : string) : Prop :=
  ∀ c, c ∈ list_ascii_of_string s → c ∈ list_ascii_of_string "0123456789".

(** I1: no balance is negative. *)
Definition I1 (st : database) : Prop :=
  ∀ id a, accounts st !! id = Some a → 0 ≤ Account.balance a.

(** I3: no two accounts share an account number. *)
Definition I3 (st : database) : Prop :=
  ∀ i j a b,
    accounts st !! i = Some a → accounts st !! j = Some b →
    Account.account_number a = Account.account_number b → i = j.

(** Some account uses the number. *)
Definition number_in_use (st : database) (number : string) : Prop :=
  ∃ id a, accounts st !! id = Some a ∧ Account.account_number a = number.

(** I5: category names are unique, and the name of every budget is the
    name of a category. *)
Definition I5 (st : database) : Prop :=
  NoDup (TransactionCategory.name <$> categories st)
  ∧ ∀ b, b ∈ budgets st →
      Budget.name b ∈ (TransactionCategory.name <$> categories st).
End Spec.

(** ** The handlers that read, and the other writers *)

(** The rows of [Account.query.filter_by(user_id=user_id).all()], each
    with its [id]; [get_all_accounts] renders them in the order the
    store yields them. *)
Definition get_all_accounts (user_id : Z) (st : database) : list (Z * Account.t) :=
  filter (λ kv, Account.user_id kv.2 = user_id) (map_to_list (accounts st)).

(** [get_account]: the refusal, or the row it renders. *)
Definition get_account (id user_id : Z) (st : database) : result + Account.t :=
  match account_of_user st id user_id with
  | None => inl (Response (Error "Account not found") 404)
  | Some account => inr account
  end.

(** [get_transaction]: the exception of the join (the one of
    [get_transactions]), the refusal, or the row it renders. *)
Definition get_transaction (id user_id : Z) (st : database) : result + Transaction.t :=
  match join_on Transaction.account_keys with
  | inl e => inl (Raised e)
  | inr key =>
      match head (filter (λ t, Transaction.id t = id
                               ∧ joined_to_user key st user_id t = true)
                    (transactions st)) with
      | None => inl (Response (Error "Transaction not found") 404)
      | Some transaction => inr transaction
      end
  end.

(** The rows of [Budget.query.filter_by(user_id=user_id).all()]. *)
Definition get_budgets (user_id : Z) (st : database) : list Budget.t :=
  filter (λ b, Budget.user_id b = user_id) (budgets st).

(** The rows of [Bill.query.filter_by(user_id=user_id).all()], each with
    its [id]. *)
Definition get_bills (user_id : Z) (st : database) : list (Z * Bill.t) :=
  filter (λ kv, Bill.user_id kv.2 = user_id) (map_to_list (bills st)).

(** The rows of [TransactionCategory.query.all()]. *)
Definition get_transaction_categories (st : database) : list TransactionCategory.t :=
  categories st.

Definition delete_bill (id user_id : Z) (st : database) : result * database :=
  match bill_of_user st id user_id with
  | None => (Response (Error "Bill not found") 404, st)
  | Some _ =>
      (Response (Message "Bill canceled successfully") 200,
       set_bills (delete id (bills st)) st)
  end.

Module BudgetPatch.
(** The body of [PUT /budgets/<id>]: every key is optional. *)
Record t : Set := mk {
  name : option string;
  amount : option Z;
  start_date : option string;
  end_date : option string
}.
End BudgetPatch.

(** [Budget.query.filter_by(id=id, user_id=user_id).first()], with the
    place of the row in the table. *)
Definition budget_of_user (st : database) (id user_id : Z) : option (nat * Budget.t) :=
  list_find (λ b, Budget.id b = id ∧ Budget.user_id b = user_id) (budgets st).

Definition update_budget (id user_id : Z) (data : BudgetPatch.t)
    (now : datetime.t) (st : database) : result * database :=
  match budget_of_user st id user_id with
  | None => (Response (Error "Budget not found") 404, st)
  | Some (i, budget) =>
      let amount := default (Budget.amount budget) (BudgetPatch.amount data) in
      if amount <=? 0
      then (Response (Error "Invalid amount. Amount must be greater than zero.") 400, st)
      else
        let start_date :=
          match BudgetPatch.start_date data with
          | Some s => PyStr s
          | None => PyDate (Budget.start_date budget)
          end in
        let end_date :=
          match BudgetPatch.end_date data with
          | Some s => PyStr s
          | None => PyDate (Budget.end_date budget)
          end in
        let invalid_format :=
          (Response (Error "Invalid date format. Use YYYY-MM-DD.") 400, st) in
        match strptime start_date with
        | inl ValueError => invalid_format
        | inl e => (Raised e, st)
        | inr start_date_obj =>
            match strptime end_date with
            | inl ValueError => invalid_format
            | inl e => (Raised e, st)
            | inr end_date_obj =>
                if datetime.ltb start_date_obj now
                then (Response (Error "Start date must be in the future.") 400, st)
                else if datetime.gtb start_date_obj end_date_obj
                then (Response (Error "Start date cannot be after end date.") 400, st)
                else
                  let st1 :=
                    match BudgetPatch.name data with
                    | Some name => (get_or_create_category name st).2
                    | None => st
                    end in
                  let budget' :=
                    Budget.mk (Budget.id budget) (Budget.user_id budget)
                      (default (Budget.name budget) (BudgetPatch.name data))
                      amount
                      (datetime.date start_date_obj) (datetime.date end_date_obj) in
                  (Response (Message "Budget updated successfully") 200,
                   mkdb (accounts st1) (transactions st1) (categories st1)
                     (<[i := budget']> (budgets st1)) (bills st1))
            end
        end
  end.

(** ** The whole service *)

(** Every request that can change the database: the seven of [request],
    and the two writers above. *)
Inductive command : Set :=
  | Request (req : request)
  | PutBudget (id user_id : Z) (data : BudgetPatch.t) (now : datetime.t)
  | DeleteBill (id user_id : Z).

Definition execute (c : command) (st : database) : result * database :=
  match c with
  | Request req => handle req st
  | PutBudget id user_id data now => update_budget id user_id data now st
  | DeleteBill id user_id => delete_bill id user_id st
  end.


(** The states the service can be in: what any sequence of commands
    makes of the empty database. *)
Inductive served : database → Prop :=
  | served_empty : served empty_database
  | served_step st c : served st → served (execute c st).2.

(** The sum of all balances. *)
Definition total_balance (st : database) : Z :=
  foldr (λ kv acc, Account.balance kv.2 + acc) 0 (map_to_list (accounts st)).

(** [a <= b] for two dates. *)
Definition date_leb (a b : date.t) : bool :=
  match datetime.lex (date.year a ?= date.year b)
          (datetime.lex (date.month a ?= date.month b)
             (date.day a ?= date.day b)) with
  | Gt => false
  | _ => true
  end.

(** What holds of the rows the budget handlers store: I5; every budget
    has the id of its place in the table and a start not after its end;
    every category has the id of its place. *)
Definition planner_sound (st : database) : Prop :=
  Spec.I5 st
  ∧ (∀ i b, budgets st !! i = Some b →
       Budget.id b = Z.of_nat i + 1
       ∧ date_leb (Budget.start_date b) (Budget.end_date b) = true)
  ∧ (∀ i c, categories st !! i = Some c →
       TransactionCategory.id c = Z.of_nat i + 1).

(** ** A small ledger *)

Module Sample.
Definition alice : Z := 1.
Definition bob : Z := 2.

Definition morning : datetime.t := datetime.mk 2024 1 1 9 0 0 0.
Definition noon : datetime.t := datetime.mk 2024 1 1 12 0 0 0.
Definition evening : datetime.t := datetime.mk 2024 1 1 18 0 0 0.

(** Account 1, of alice, opened with 1000.00. *)
Definition open_a : NewAccount.t :=
  NewAccount.mk "savings" "1234567890" (Some 100000).

(** Account 2, of bob, opened with the default balance. *)
Definition open_b : NewAccount.t :=
  NewAccount.mk "checking" "0987654321" None.

Definition one_account : database :=
  (create_account alice open_a morning empty_database).2.

Definition two_accounts : database :=
  (create_account bob open_b morning one_account).2.

(** 150 from account 1 to account 2. *)
Definition rent : NewTransaction.t :=
  NewTransaction.mk 1 2 (PyInt 150) "transfer" (Some "rent").

Definition after_rent : database :=
  (create_transaction alice rent noon two_accounts).2.




(** 2000 from account 1 to account 2. *)
Definition too_much : NewTransaction.t :=
  NewTransaction.mk 1 2 (PyInt 2000) "transfer" None.

(** 150.75, a [float], from account 1 to account 2. *)
Definition rent_and_cents : NewTransaction.t :=
  NewTransaction.mk 1 2 (PyFloat (Qmake 603 4)) "transfer" (Some "rent").

(** Nine decimal digits and the superscript two (code point 178). *)
Definition superscript_number : string :=
  String.append "123456789" (String (Ascii.ascii_of_N 178%N) EmptyString).

(** A second account with the number of account 1. *)
Definition open_a_again : NewAccount.t :=
  NewAccount.mk "checking" "1234567890" (Some 500).

(** Account 1 becomes a checking account. *)
Definition to_checking : AccountPatch.t :=
  AccountPatch.mk (Some "checking") None false.

(** Midnight of 1 January 2030, to the microsecond. *)
Definition new_year : datetime.t := datetime.mk 2030 1 1 0 0 0 0.

(** A budget for January 2030. *)
Definition groceries : NewBudget.t :=
  NewBudget.mk "Groceries" 50000 "2030-01-01" "2030-01-31".

(** A bill of alice on account 1, due at the end of 2024. *)
Definition electricity : NewBill.t :=
  NewBill.mk "Electric Company" "2024-12-31" 15000 1.

Definition with_bill : database :=
  (create_bill alice electricity noon two_accounts).2.

(** A new name and a new amount for bill 1; the due date is left out. *)
Definition rename_bill : BillPatch.t :=
  BillPatch.mk (Some "Electricity Company") None (Some 20000).
End Sample.

(** ** More of the small ledger *)

Module Scenario.
(** A third account, of alice. *)
Definition open_c : NewAccount.t :=
  NewAccount.mk "checking" "5555555555" (Some 2500).

(** A budget of alice for the year 2025, made on 1 January 2024. *)
Definition travel : NewBudget.t :=
  NewBudget.mk "Travel" 120000 "2025-01-01" "2025-12-31".

Definition with_budget : database :=
  (create_budget Sample.alice travel Sample.noon Sample.two_accounts).2.

(** A new amount for budget 1; the dates are left out. *)
Definition raise_travel : BudgetPatch.t :=
  BudgetPatch.mk None (Some 150000) None None.

(** A new name, amount and year for budget 1. *)
Definition move_travel : BudgetPatch.t :=
  BudgetPatch.mk (Some "Holidays") (Some 150000) (Some "2026-01-01") (Some "2026-12-31").

(** A balance of 19.99 for account 1. *)
Definition set_cents : AccountPatch.t :=
  AccountPatch.mk None (Some 1999) false.

(** A later due date for bill 1. *)
Definition postpone_bill : BillPatch.t :=
  BillPatch.mk None (Some "2025-06-30") None.

(** The ledger with the travel budget and the electricity bill. *)
Definition planned : database :=
  (create_bill Sample.alice Sample.electricity Sample.noon with_budget).2.
End Scenario.

(** * Properties *)

(** ** [strptime] on a few texts *)

Example strptime_iso :
  strptime (PyStr "2024-01-31") = inr (datetime.mk 2024 1 31 0 0 0 0).
Proof. reflexivity. Qed.

Example strptime_short_fields :
  strptime (PyStr "2024-2-9") = inr (datetime.mk 2024 2 9 0 0 0 0).
Proof. reflexivity. Qed.

Example strptime_not_a_day :
  strptime (PyStr "2023-02-29") = inl ValueError.
Proof. reflexivity. Qed.

Example strptime_trailing :
  strptime (PyStr "2024-01-311") = inl ValueError.
Proof. reflexivity. Qed.

Example strptime_date_object :
  strptime (PyDate (date.mk 2024 1 31)) = inl TypeError.
Proof. reflexivity. Qed.

(** ** Primary keys *)

Lemma foldr_max_ge (l : list Z) (k : Z) : k ∈ l → k ≤ foldr Z.max 0 l.
Proof.
  induction l as [|x l IH]; intros Hk.
  - by apply elem_of_nil in Hk.
  - apply elem_of_cons in Hk as [->|Hk]; simpl; [lia|].
    specialize (IH Hk). lia.
Qed.

Lemma next_key_above {A} (m : gmap Z A) (k : Z) :
  is_Some (m !! k) → k < next_key m.
Proof.
  intros [a Ha]. unfold next_key.
  assert (k ∈ (map_to_list m).*1) as Hk.
  { apply list_elem_of_fmap. exists (k, a). split; [done|].
    by apply elem_of_map_to_list. }
  apply foldr_max_ge in Hk. lia.
Qed.

(** A new row never takes the key of a row in the table. *)
Lemma next_key_fresh {A} (m : gmap Z A) : m !! next_key m = None.
Proof.
  destruct (m !! next_key m) eqn:E; [|done].
  assert (next_key m < next_key m) by (apply next_key_above; eauto). lia.
Qed.

Lemma next_key_positive {A} (m : gmap Z A) : 1 ≤ next_key m.
Proof.
  unfold next_key.
  assert (0 ≤ foldr Z.max 0 (map_to_list m).*1); [|lia].
  induction ((map_to_list m).*1); simpl; lia.
Qed.

(** ** What [onupdate] leaves alone *)

Lemma onupdate_user_id now a b :
  Account.user_id (Account.onupdate now a b) = Account.user_id b.
Proof. unfold Account.onupdate. by case_decide. Qed.

Lemma onupdate_account_type now a b :
  Account.account_type (Account.onupdate now a b) = Account.account_type b.
Proof. unfold Account.onupdate. by case_decide. Qed.

Lemma onupdate_account_number now a b :
  Account.account_number (Account.onupdate now a b) = Account.account_number b.
Proof. unfold Account.onupdate. by case_decide. Qed.

Lemma onupdate_balance now a b :
  Account.balance (Account.onupdate now a b) = Account.balance b.
Proof. unfold Account.onupdate. by case_decide. Qed.

Lemma onupdate_created_at now a b :
  Account.created_at (Account.onupdate now a b) = Account.created_at b.
Proof. unfold Account.onupdate. by case_decide. Qed.

Lemma onupdate_updated_at now a b :
  Account.updated_at (Account.onupdate now a b) = Account.updated_at b
  ∨ Account.updated_at (Account.onupdate now a b) = now.
Proof. unfold Account.onupdate. case_decide; [by left|by right]. Qed.

Lemma flush_user_id now unequal a b :
  Account.user_id (Account.flush now unequal a b) = Account.user_id b.
Proof. unfold Account.flush. destruct unequal; [done|apply onupdate_user_id]. Qed.

Lemma flush_account_type now unequal a b :
  Account.account_type (Account.flush now unequal a b) = Account.account_type b.
Proof. unfold Account.flush. destruct unequal; [done|apply onupdate_account_type]. Qed.

Lemma flush_account_number now unequal a b :
  Account.account_number (Account.flush now unequal a b) = Account.account_number b.
Proof.
  unfold Account.flush. destruct unequal; [done|apply onupdate_account_number].
Qed.

Lemma flush_balance now unequal a b :
  Account.balance (Account.flush now unequal a b) = Account.balance b.
Proof. unfold Account.flush. destruct unequal; [done|apply onupdate_balance]. Qed.

Lemma flush_created_at now unequal a b :
  Account.created_at (Account.flush now unequal a b) = Account.created_at b.
Proof. unfold Account.flush. destruct unequal; [done|apply onupdate_created_at]. Qed.

Lemma flush_updated_at now unequal a b :
  Account.updated_at (Account.flush now unequal a b) = Account.updated_at b
  ∨ Account.updated_at (Account.flush now unequal a b) = now.
Proof.
  unfold Account.flush. destruct unequal; [by right|apply onupdate_updated_at].
Qed.

Lemma debit_balance now amount a :
  Account.balance (debit now amount a) = Account.balance a - amount.
Proof. unfold debit. by rewrite onupdate_balance. Qed.

Lemma credit_balance now amount a :
  Account.balance (credit now amount a) = Account.balance a + amount.
Proof. unfold credit. by rewrite onupdate_balance. Qed.

Lemma debit_account_number now amount a :
  Account.account_number (debit now amount a) = Account.account_number a.
Proof. unfold debit. by rewrite onupdate_account_number. Qed.

Lemma credit_account_number now amount a :
  Account.account_number (credit now amount a) = Account.account_number a.
Proof. unfold credit. by rewrite onupdate_account_number. Qed.

(** ** The scoped lookup *)

Lemma account_of_user_Some st id user_id a :
  account_of_user st id user_id = Some a
  ↔ accounts st !! id = Some a ∧ Account.user_id a = user_id.
Proof.
  unfold account_of_user. destruct (accounts st !! id) as [a'|]; simpl.
  - case_decide; intuition congruence.
  - intuition congruence.
Qed.

Lemma account_of_user_None st id user_id :
  account_of_user st id user_id = None
  ↔ ∀ a, accounts st !! id = Some a → Account.user_id a ≠ user_id.
Proof.
  unfold account_of_user. destruct (accounts st !! id) as [a'|]; simpl.
  - case_decide as Hown; split.
    + intros [=].
    + intros Hn. by destruct (Hn a').
    + intros _ a [= <-]. done.
    + done.
  - split; [|done]. intros _ a [=].
Qed.

(** ** The transfer *)

(** The checks of the specification, read on the guards of the code. *)
Lemma positive_le_zero amount : Spec.positive amount = negb (le_zero amount).
Proof.
  destruct amount as [n|q]; simpl; [|done].
  destruct (Z.ltb_spec 0 n), (Z.leb_spec n 0); simpl; try done; lia.
Qed.

Lemma covers_decimal_lt balance amount :
  Spec.covers balance amount = negb (decimal_lt balance amount).
Proof.
  destruct amount as [n|q]; simpl; [|by rewrite negb_involutive].
  destruct (Z.leb_spec (hundredths n) balance), (Z.ltb_spec balance (hundredths n));
    simpl; try done; lia.
Qed.

Lemma positive_int n : Spec.positive (PyInt n) = true ↔ 0 < n.
Proof. simpl. apply Z.ltb_lt. Qed.

Lemma covers_int balance n :
  Spec.covers balance (PyInt n) = true ↔ hundredths n ≤ balance.
Proof. simpl. apply Z.leb_le. Qed.

(** The outcome of a transfer by cases: one of the five refusals with
    the database as it was, the [TypeError] of a [float] amount that
    passes the checks, or the commit. *)
Lemma create_transaction_cases user_id data utcnow st :
  let from_id := NewTransaction.from_account_id data in
  let to_id := NewTransaction.to_account_id data in
  let amount := NewTransaction.amount data in
  (account_of_user st from_id user_id = None
   ∧ create_transaction user_id data utcnow st = (Spec.UnauthorizedSource, st))
  ∨ ∃ f, account_of_user st from_id user_id = Some f ∧
    ((accounts st !! to_id = None
      ∧ create_transaction user_id data utcnow st = (Spec.RecipientNotFound, st))
     ∨ ∃ t, accounts st !! to_id = Some t ∧
       ((Spec.positive amount = false
         ∧ create_transaction user_id data utcnow st = (Spec.InvalidTransferAmount, st))
        ∨ (Spec.positive amount = true
           ∧ Spec.covers (Account.balance f) amount = false
           ∧ create_transaction user_id data utcnow st = (Spec.InsufficientFunds, st))
        ∨ (Spec.positive amount = true
           ∧ Spec.covers (Account.balance f) amount = true
           ∧ ((from_id = to_id
               ∧ create_transaction user_id data utcnow st
                 = (Spec.SameAccountTransfer, st))
              ∨ (from_id ≠ to_id
                 ∧ ((∃ q, amount = PyFloat q
                       ∧ create_transaction user_id data utcnow st
                         = (Raised TypeError, st))
                    ∨ (∃ n, amount = PyInt n
                         ∧ 0 < n ∧ hundredths n ≤ Account.balance f
                         ∧ create_transaction user_id data utcnow st =
                           (Spec.TransferDone,
                            mkdb (alter (credit utcnow (hundredths n)) to_id
                                    (alter (debit utcnow (hundredths n)) from_id
                                       (accounts st)))
                              (transactions st ++
                                 [Transaction.mk (next_row (transactions st))
                                    from_id to_id (hundredths n)
                                    (NewTransaction.type data)
                                    (default "" (NewTransaction.description data))
                                    utcnow])
                              (categories st) (budgets st) (bills st))))))))).
Proof.
  intros from_id to_id amount. unfold create_transaction.
  fold from_id to_id amount.
  destruct (account_of_user st from_id user_id) as [f|]; [right|by left].
  exists f. split; [done|].
  destruct (accounts st !! to_id) as [t|]; [right|by left].
  exists t. split; [done|].
  rewrite positive_le_zero, covers_decimal_lt.
  destruct (le_zero amount) eqn:Hzero; [by left|right].
  destruct (decimal_lt (Account.balance f) amount) eqn:Hlow; [by left|right].
  split; [done|]. split; [done|].
  destruct (Z.eqb_spec from_id to_id); [by left|right].
  split; [done|].
  destruct amount as [k|q] eqn:Hamount; [right|left; eauto].
  exists k. simpl in Hzero, Hlow.
  apply Z.leb_gt in Hzero. apply Z.ltb_ge in Hlow. done.
Qed.

Ltac transfer_cases user_id data utcnow st :=
  destruct (create_transaction_cases user_id data utcnow st)
    as [[Hfrom Hrun]
       |(f & Hfrom & [[Hto Hrun]
                     |(t & Hto & [[Hamount Hrun]
                                 |[(Hamount & Hfunds & Hrun)
                                  |(Hamount & Hfunds
                                    & [[Hsame Hrun]
                                      |(Hdiff & [(q & Hfloat & Hrun)
                                                |(n & Hint & Hpos & Hcov & Hrun)])])]])])];
  cbv zeta in Hfrom, Hrun; rewrite Hrun; clear Hrun.

(** A transfer of a [float] amount is never committed: a check refuses
    it, or the arithmetic raises. *)
Lemma create_transaction_float user_id data utcnow st value :
  NewTransaction.amount data = PyFloat value →
  (create_transaction user_id data utcnow st).1 ≠ Spec.TransferDone
  ∧ (create_transaction user_id data utcnow st).2 = st.
Proof.
  intros Hq.
  transfer_cases user_id data utcnow st; simpl; try done. congruence.
Qed.

(** 150.75 from an account that holds 1000.00. *)
Example create_transaction_150_75 :
  create_transaction Sample.alice Sample.rent_and_cents Sample.noon
    Sample.two_accounts = (Raised TypeError, Sample.two_accounts).
Proof. reflexivity. Qed.

(** The tenth of a unit, as a [float], is above the [Decimal] 0.10. *)
Example decimal_lt_tenth :
  decimal_lt 10 (PyFloat (Qmake 3602879701896397 36028797018963968)) = true.
Proof. reflexivity. Qed.

(** ** C3 *)



(** ** C4 *)

(** C4. A transfer that is answered with anything but the success
    response leaves the database as it was: every account row, so in
    particular the balances of the source and of the destination, and
    the transaction table are those of before the call.  In particular a
    positive amount above the balance of an authorized source, towards
    an existing recipient, is answered [InsufficientFunds] and changes
    nothing. *)
Theorem create_transaction_error_atomic user_id data utcnow st :
  let r := create_transaction user_id data utcnow st in
  let from_id := NewTransaction.from_account_id data in
  let to_id := NewTransaction.to_account_id data in
  (r.1 ≠ Spec.TransferDone →
     r.2 = st
     ∧ accounts r.2 !! from_id = accounts st !! from_id
     ∧ accounts r.2 !! to_id = accounts st !! to_id
     ∧ transactions r.2 = transactions st)
  ∧ (∀ source, account_of_user st from_id user_id = Some source →
          is_Some (accounts st !! to_id) →
          Spec.positive (NewTransaction.amount data) = true →
          Spec.covers (Account.balance source) (NewTransaction.amount data) = false →
          r.1 = Spec.InsufficientFunds ∧ r.2 = st).
Proof.
  intros r from_id to_id. subst r from_id to_id. split.
  - transfer_cases user_id data utcnow st; simpl; intros Herr; try done.
  - intros source Hsource [t0 Ht0] Hpositive Hlow.
    transfer_cases user_id data utcnow st; simpl; simplify_eq; try done;
      congruence.
Qed.

Lemma create_transaction_error_atomic_witness :
  (create_transaction Sample.alice Sample.too_much Sample.noon
     Sample.two_accounts).1 = Spec.InsufficientFunds
  ∧ (create_transaction Sample.alice Sample.too_much Sample.noon
       Sample.two_accounts).2 = Sample.two_accounts
  ∧ transactions
      (create_transaction Sample.alice Sample.too_much Sample.noon
         Sample.two_accounts).2 = transactions Sample.two_accounts.
Proof.
  pose proof (create_transaction_error_atomic Sample.alice Sample.too_much
                Sample.noon Sample.two_accounts) as [Hany Hfunds].
  split; [|split].
  - refine (proj1 (Hfunds _ _ _ _ _)).
    + reflexivity.
    + eexists. reflexivity.
    + reflexivity.
    + reflexivity.
  - refine (proj1 (Hany _)). vm_compute. discriminate.
  - refine (proj2 (proj2 (proj2 (Hany _)))). vm_compute. discriminate.
Defined.

(** ** The transaction table only grows *)

Lemma handle_transactions req st :
  transactions (handle req st).2 = transactions st
  ∨ ∃ tx, transactions (handle req st).2 = transactions st ++ [tx].
Proof.
  destruct req; simpl.
  - unfold create_account. repeat case_match; simpl; auto.
  - unfold update_account. repeat case_match; simpl; auto.
  - unfold delete_account. repeat case_match; simpl; auto.
  - unfold create_transaction. repeat case_match; simpl; eauto.
  - unfold create_budget, get_or_create_category.
    repeat case_match; simplify_eq; simpl; auto.
  - unfold create_bill. repeat case_match; simpl; auto.
  - unfold update_bill. repeat case_match; simpl; auto.
Qed.

Lemma run_transactions reqs st :
  transactions st `prefix_of` transactions (run reqs st).
Proof.
  revert st. induction reqs as [|req reqs IH]; intros st; simpl.
  - done.
  - etrans; [|apply IH].
    destruct (handle_transactions req st) as [->|[tx ->]].
    + done.
    + by apply prefix_app_r.
Qed.

(** ** C1 *)

(** C1. A successful transfer of amount A from account F to account T
    (two different accounts, A a whole number of units) takes A off the
    balance of F, adds A to the balance of T, leaves every other account
    row as it was, and appends exactly one transaction row, which
    records F, T and A; no later request changes or removes a row of the
    transaction table. *)
Theorem create_transaction_effect user_id data utcnow st :
  let r := create_transaction user_id data utcnow st in
  let F := NewTransaction.from_account_id data in
  let T := NewTransaction.to_account_id data in
  r.1 = Spec.TransferDone →
  ∃ A f t tx,
    NewTransaction.amount data = PyInt A
    ∧ accounts st !! F = Some f ∧ Account.user_id f = user_id
    ∧ accounts st !! T = Some t
    ∧ F ≠ T
    ∧ Account.balance <$> accounts r.2 !! F = Some (Account.balance f - hundredths A)
    ∧ Account.balance <$> accounts r.2 !! T = Some (Account.balance t + hundredths A)
    ∧ (∀ id, id ≠ F → id ≠ T → accounts r.2 !! id = accounts st !! id)
    ∧ transactions r.2 = transactions st ++ [tx]
    ∧ Transaction.from_account_id tx = F
    ∧ Transaction.to_account_id tx = T
    ∧ Transaction.amount tx = hundredths A
    ∧ (∀ reqs, transactions r.2 `prefix_of` transactions (run reqs r.2)).
Proof.
  intros r F T. subst r F T.
  transfer_cases user_id data utcnow st; simpl; intros Hok; try done.
  destruct (proj1 (account_of_user_Some _ _ _ _) Hfrom) as [Hf Hown].
  exists n, f, t,
    (Transaction.mk (next_row (transactions st))
       (NewTransaction.from_account_id data) (NewTransaction.to_account_id data)
       (hundredths n) (NewTransaction.type data)
       (default "" (NewTransaction.description data)) utcnow).
  split_and!; try done.
  - rewrite lookup_alter_ne by done. rewrite lookup_alter_eq, Hf. simpl.
    by rewrite debit_balance.
  - rewrite lookup_alter_eq. rewrite lookup_alter_ne by done. rewrite Hto. simpl.
    by rewrite credit_balance.
  - intros id HF HT. by rewrite !lookup_alter_ne.
  - intros reqs. apply run_transactions.
Qed.

(** 150 from an account holding 1000.00 to an account holding nothing. *)
Lemma create_transaction_effect_witness :
  let st' := (create_transaction Sample.alice Sample.rent Sample.noon
                Sample.two_accounts).2 in
  Account.balance <$> accounts st' !! 1 = Some 85000
  ∧ Account.balance <$> accounts st' !! 2 = Some 15000
  ∧ ∃ tx, transactions st' = [tx]
      ∧ Transaction.from_account_id tx = 1
      ∧ Transaction.to_account_id tx = 2
      ∧ Transaction.amount tx = 15000.
Proof.
  destruct (create_transaction_effect Sample.alice Sample.rent Sample.noon
              Sample.two_accounts eq_refl)
    as (A & f & t & tx & HA & Hf & _ & Ht & _ & HF & HT & _ & Htx & Hfrom & Hto
        & Hamount & _).
  injection HA as <-. vm_compute in Hf. vm_compute in Ht.
  injection Hf as <-. injection Ht as <-.
  split; [exact HF|]. split; [exact HT|].
  exists tx. split; [exact Htx|]. split; [exact Hfrom|]. split; [exact Hto|exact Hamount].
Defined.

(** ** C5 *)




(** ** The account update *)

(** [update_account] answers with the update or with one of three
    refusals, and a refusal changes nothing. *)
Lemma update_account_refusals id user_id data utcnow st :
  let r := update_account id user_id data utcnow st in
  r.1 = Spec.AccountUpdated
  ∨ (r.2 = st
     ∧ (r.1 = Spec.AccountNotFound ∨ r.1 = Spec.InvalidInput
        ∨ r.1 = Spec.NegativeBalance)).
Proof.
  unfold update_account. repeat case_match; simpl; auto.
Qed.

(** What a successful [update_account] commits. *)
Lemma update_account_committed id user_id data utcnow st :
  (update_account id user_id data utcnow st).1 = Spec.AccountUpdated →
  ∃ patch loaded,
    data = Some patch
    ∧ account_of_user st id user_id = Some loaded
    ∧ (∀ b, AccountPatch.balance patch = Some b → 0 ≤ b)
    ∧ (update_account id user_id data utcnow st).2
      = set_accounts
          (<[id := Account.flush utcnow (balance_unequal patch loaded) loaded
                     (patched patch loaded)]> (accounts st))
          st.
Proof.
  unfold update_account.
  destruct (account_of_user st id user_id) as [loaded|]; [|done].
  destruct data as [patch|]; [|done].
  destruct (AccountPatch.is_empty patch); [done|].
  unfold patched, balance_unequal.
  destruct (AccountPatch.balance patch) as [new_balance|] eqn:Hbalance.
  - destruct (Z.ltb_spec new_balance 0); [done|]. simpl. intros _.
    exists patch, loaded. rewrite Hbalance. split_and!; try done.
    by intros b [= <-].
  - simpl. intros _. exists patch, loaded. rewrite Hbalance. by split_and!.
Qed.

(** ** C2 *)

Lemma create_account_I1 user_id data utcnow st :
  Spec.I1 st → Spec.I1 (create_account user_id data utcnow st).2.
Proof.
  intros HI. unfold create_account.
  repeat case_match; simpl; try done.
  intros id a. simpl. rewrite lookup_insert. case_decide.
  - intros [= <-]. simpl. lia.
  - apply HI.
Qed.

Lemma update_account_I1 id user_id data utcnow st :
  Spec.I1 st → Spec.I1 (update_account id user_id data utcnow st).2.
Proof.
  intros HI.
  destruct (update_account_refusals id user_id data utcnow st) as [Hdone|[-> _]];
    [|done].
  destruct (update_account_committed id user_id data utcnow st Hdone)
    as (patch & loaded & _ & Hloaded & Hpos & ->).
  destruct (proj1 (account_of_user_Some _ _ _ _) Hloaded) as [Hrow _].
  intros j a. simpl. rewrite lookup_insert. case_decide; [|apply HI].
  intros [= <-]. rewrite flush_balance. unfold patched. simpl.
  destruct (AccountPatch.balance patch) as [b|]; simpl;
    [by apply Hpos|by apply (HI id)].
Qed.

Lemma delete_account_I1 id user_id st :
  Spec.I1 st → Spec.I1 (delete_account id user_id st).2.
Proof.
  intros HI. unfold delete_account. case_match; simpl; [|done].
  intros j a. simpl. rewrite lookup_delete. case_decide; [done|apply HI].
Qed.

Lemma create_transaction_I1 user_id data utcnow st :
  Spec.I1 st → Spec.I1 (create_transaction user_id data utcnow st).2.
Proof.
  intros HI. transfer_cases user_id data utcnow st; simpl; try done.
  destruct (proj1 (account_of_user_Some _ _ _ _) Hfrom) as [Hf _].
  intros id a. simpl.
  destruct (decide (NewTransaction.to_account_id data = id)) as [<-|Hnto].
  - rewrite lookup_alter_eq. rewrite lookup_alter_ne by done. rewrite Hto. simpl.
    intros [= <-]. rewrite credit_balance. specialize (HI _ _ Hto).
    unfold hundredths. lia.
  - rewrite lookup_alter_ne by done.
    destruct (decide (NewTransaction.from_account_id data = id)) as [<-|Hnfrom].
    + rewrite lookup_alter_eq, Hf. simpl.
      intros [= <-]. rewrite debit_balance. lia.
    + rewrite lookup_alter_ne by done. apply HI.
Qed.

(** No request of the service takes a balance below zero. *)
Lemma handle_I1 req st : Spec.I1 st → Spec.I1 (handle req st).2.
Proof.
  intros HI. destruct req; simpl.
  - by apply create_account_I1.
  - by apply update_account_I1.
  - by apply delete_account_I1.
  - by apply create_transaction_I1.
  - unfold create_budget, get_or_create_category.
    repeat case_match; simplify_eq; simpl; done.
  - unfold create_bill. repeat case_match; simpl; done.
  - unfold update_bill. repeat case_match; simpl; done.
Qed.

(** C2. In every state that a sequence of successful core operations
    ([create_account], [update_account], the transfer) leads to from the
    empty database, every account has a balance of at least zero (I1).
    The three guards: [create_account] refuses a negative initial
    balance, [update_account] refuses a negative patched balance, and
    the transfer refuses an amount above the balance of the source; each
    refusal changes nothing. *)
Theorem balances_never_negative :
  (∀ st, reachable st → Spec.I1 st)
  ∧ (∀ user_id data utcnow st b,
       NewAccount.balance data = Some b → b < 0 →
       successful (create_account user_id data utcnow st).1 = false
       ∧ (create_account user_id data utcnow st).2 = st)
  ∧ (∀ id user_id data utcnow st b,
       AccountPatch.balance data = Some b → b < 0 →
       successful (update_account id user_id (Some data) utcnow st).1 = false
       ∧ (update_account id user_id (Some data) utcnow st).2 = st)
  ∧ (∀ user_id data utcnow st source,
       account_of_user st (NewTransaction.from_account_id data) user_id = Some source →
       Spec.covers (Account.balance source) (NewTransaction.amount data) = false →
       successful (create_transaction user_id data utcnow st).1 = false
       ∧ (create_transaction user_id data utcnow st).2 = st).
Proof.
  split_and!.
  - induction 1 as [|st req Hreach IH Hcore Hok].
    + intros id a. simpl. by rewrite lookup_empty.
    + by apply handle_I1.
  - intros user_id data utcnow st b Hb Hneg. unfold create_account.
    rewrite Hb. simpl.
    repeat case_match; simpl; try done; lia.
  - intros id user_id data utcnow st b Hb Hneg. unfold update_account.
    rewrite Hb.
    repeat case_match; simpl; try done; lia.
  - intros user_id data utcnow st source Hsource Hlow.
    transfer_cases user_id data utcnow st; simpl; simplify_eq; try done;
      congruence.
Qed.

Lemma reachable_after_rent : reachable Sample.after_rent.
Proof.
  apply (reachable_step Sample.two_accounts
           (PostTransaction Sample.alice Sample.rent Sample.noon)); [|done|done].
  apply (reachable_step Sample.one_account
           (PostAccount Sample.bob Sample.open_b Sample.morning)); [|done|done].
  apply (reachable_step empty_database
           (PostAccount Sample.alice Sample.open_a Sample.morning)); [|done|done].
  apply reachable_empty.
Defined.

Lemma balances_never_negative_witness :
  Spec.I1 Sample.after_rent
  ∧ successful
      (create_transaction Sample.alice Sample.too_much Sample.evening
         Sample.after_rent).1 = false.
Proof.
  destruct balances_never_negative as (Hreach & _ & _ & Hfunds).
  split.
  - apply Hreach. apply reachable_after_rent.
  - refine (proj1 (Hfunds Sample.alice Sample.too_much Sample.evening Sample.after_rent
                     (Account.mk 1 "savings" "1234567890" 85000 Sample.morning Sample.noon)
                     _ _)).
    + reflexivity.
    + reflexivity.
Defined.

(** ** C6 *)

Lemma all_digits_spec s : all_digits s = true ↔ digits_only s.
Proof.
  unfold digits_only. induction s as [|c s IH]; simpl.
  - split; [|done]. intros _ c Hc. by apply elem_of_nil in Hc.
  - rewrite andb_true_iff, IH. split.
    + intros [Hc Hs] c' Hc'. apply elem_of_cons in Hc' as [->|Hc']; auto.
    + intros Hall. split.
      * apply Hall. by left.
      * intros c' Hc'. apply Hall. by right.
Qed.

(** [isdigit] refuses the empty text and is [digits_only] on the others. *)
Lemma isdigit_spec s : isdigit s = true ↔ s ≠ "" ∧ digits_only s.
Proof.
  destruct s as [|c s].
  - simpl. split; [done|]. by intros [? _].
  - unfold isdigit. rewrite all_digits_spec. split; [|by intros [_ ?]].
    intros Hall. split; [done|exact Hall].
Qed.

(** A text the first guard of [create_account] lets through. *)
Lemma account_number_guard s :
  negb (isdigit s) || (len s <? 10) = true
  ↔ ¬ digits_only s ∨ len s < 10.
Proof.
  rewrite orb_true_iff, negb_true_iff, Z.ltb_lt. split.
  - intros [Hnot|Hshort]; [|by right].
    destruct (decide (s = "")) as [->|Hne]; [by right|].
    left. intros Hall.
    assert (isdigit s = true) by (by apply isdigit_spec). congruence.
  - intros [Hnot|Hshort]; [|by right].
    left. apply not_true_is_false. intros Hd.
    apply isdigit_spec in Hd as [_ Hall]. by apply Hnot.
Qed.

Lemma account_by_number_None st number :
  account_by_number st number = None ↔ ¬ Spec.number_in_use st number.
Proof.
  unfold account_by_number, Spec.number_in_use. rewrite head_None. split.
  - intros Hnil (id & a & Hrow & Hnum).
    apply (filter_nil_not_elem_of _ _ (id, a) Hnil); [done|].
    by apply elem_of_map_to_list.
  - intros Hfree.
    destruct (filter _ _) as [|[id a] l] eqn:Hfilter; [done|].
    assert ((id, a) ∈ filter (λ kv : Z * Account.t, Account.account_number kv.2 = number)
                         (map_to_list (accounts st))) as Hin.
    { rewrite Hfilter. by left. }
    apply list_elem_of_filter in Hin as [Hnum Hin].
    apply elem_of_map_to_list in Hin.
    destruct Hfree. by exists id, a.
Qed.

Lemma account_by_number_is_Some st number :
  is_Some (account_by_number st number) ↔ Spec.number_in_use st number.
Proof.
  split.
  - intros [kv Hkv]. unfold account_by_number in Hkv.
    apply head_Some_elem_of in Hkv.
    apply list_elem_of_filter in Hkv as [Hnum Hin].
    destruct kv as [id a]. apply elem_of_map_to_list in Hin. by exists id, a.
  - intros Huse. destruct (account_by_number st number) eqn:E; [eauto|].
    by apply account_by_number_None in E.
Qed.

(** The outcome of [create_account] by cases. *)
Lemma create_account_cases user_id data utcnow st :
  let number := NewAccount.account_number data in
  let balance := default 0 (NewAccount.balance data) in
  ((¬ digits_only number ∨ len number < 10)
   ∧ create_account user_id data utcnow st = (Spec.InvalidAccountNumber, st))
  ∨ (digits_only number ∧ 10 ≤ len number ∧
     ((Spec.number_in_use st number
       ∧ create_account user_id data utcnow st = (Spec.DuplicateAccountNumber, st))
      ∨ (¬ Spec.number_in_use st number ∧
         ((balance < 0
           ∧ create_account user_id data utcnow st = (Spec.NegativeInitialBalance, st))
          ∨ (0 ≤ balance
             ∧ create_account user_id data utcnow st =
               (Spec.AccountCreated,
                set_accounts
                  (<[next_key (accounts st) :=
                       Account.mk user_id (NewAccount.account_type data) number
                         balance utcnow utcnow]> (accounts st)) st)))))).
Proof.
  intros number balance. unfold create_account. fold number balance.
  destruct (negb (isdigit number) || (len number <? 10)) eqn:Hguard.
  - left. split; [|done]. by apply account_number_guard.
  - right.
    assert (¬ (¬ digits_only number ∨ len number < 10)) as Hvalid.
    { intros H. apply account_number_guard in H. congruence. }
    assert (digits_only number) as Hnum.
    { apply orb_false_iff in Hguard as [Hd _]. apply negb_false_iff in Hd.
      by apply isdigit_spec in Hd as [_ ?]. }
    split; [done|]. split; [lia|].
    destruct (account_by_number st number) as [kv|] eqn:Hdup.
    + left. split; [|done]. apply account_by_number_is_Some. eauto.
    + right. split; [by apply account_by_number_None|].
      destruct (Z.ltb_spec balance 0); [left|right]; done.
Qed.

Lemma create_account_I3 user_id data utcnow st :
  Spec.I3 st → Spec.I3 (create_account user_id data utcnow st).2.
Proof.
  intros HI.
  destruct (create_account_cases user_id data utcnow st)
    as [[_ ->]|(_ & _ & [[_ ->]|(Hfree & [[_ ->]|[_ ->]])])]; try done.
  intros i j a b. simpl. rewrite !lookup_insert.
  repeat case_decide; simplify_eq; try done.
  - intros [= <-] Hb Hnum. simpl in Hnum. destruct Hfree. by exists j, b.
  - intros Ha [= <-] Hnum. simpl in Hnum. destruct Hfree. by exists i, a.
  - apply HI.
Qed.


Lemma numbers_kept_refl st : numbers_kept st st.
Proof. intros i a Ha. eauto. Qed.

Lemma numbers_kept_I3 st st' : numbers_kept st st' → Spec.I3 st → Spec.I3 st'.
Proof.
  intros Hkept HI i j a' b' Ha' Hb' Hnum.
  destruct (Hkept i a' Ha') as (a & Ha & Hna).
  destruct (Hkept j b' Hb') as (b & Hb & Hnb).
  apply (HI i j a b Ha Hb). congruence.
Qed.

Lemma update_account_numbers_kept id user_id data utcnow st :
  numbers_kept st (update_account id user_id data utcnow st).2.
Proof.
  destruct (update_account_refusals id user_id data utcnow st) as [Hdone|[-> _]];
    [|apply numbers_kept_refl].
  destruct (update_account_committed id user_id data utcnow st Hdone)
    as (patch & loaded & _ & Hloaded & _ & ->).
  destruct (proj1 (account_of_user_Some _ _ _ _) Hloaded) as [Hrow _].
  intros i a'. simpl. rewrite lookup_insert. case_decide as Hi.
  - subst i. intros [= <-]. exists loaded. split; [done|].
    by rewrite flush_account_number.
  - eauto.
Qed.

Lemma delete_account_numbers_kept id user_id st :
  numbers_kept st (delete_account id user_id st).2.
Proof.
  unfold delete_account. case_match; simpl; [|apply numbers_kept_refl].
  intros i a'. simpl. rewrite lookup_delete. case_decide; [done|eauto].
Qed.

Lemma create_transaction_numbers_kept user_id data utcnow st :
  numbers_kept st (create_transaction user_id data utcnow st).2.
Proof.
  transfer_cases user_id data utcnow st; simpl; try apply numbers_kept_refl.
  intros i a'. simpl. intros Ha'.
  apply lookup_alter_Some in Ha' as [(_ & t' & Ht' & ->)|[_ Ha']].
  - apply lookup_alter_Some in Ht' as [(_ & t0 & Ht0 & ->)|[_ Ht']].
    + exists t0. split; [done|].
      by rewrite credit_account_number, debit_account_number.
    + exists t'. split; [done|]. by rewrite credit_account_number.
  - apply lookup_alter_Some in Ha' as [(_ & f0 & Hf0 & ->)|[_ Ha']].
    + exists f0. split; [done|]. by rewrite debit_account_number.
    + eauto.
Qed.

(** I3 is an invariant of the service: no request breaks it. *)
Lemma handle_I3 req st : Spec.I3 st → Spec.I3 (handle req st).2.
Proof.
  destruct req; simpl.
  - apply create_account_I3.
  - apply numbers_kept_I3, update_account_numbers_kept.
  - apply numbers_kept_I3, delete_account_numbers_kept.
  - apply numbers_kept_I3, create_transaction_numbers_kept.
  - unfold create_budget, get_or_create_category.
    repeat case_match; simplify_eq; simpl; done.
  - unfold create_bill. repeat case_match; simpl; done.
  - unfold update_bill. repeat case_match; simpl; done.
Qed.

Lemma run_I3 reqs st : Spec.I3 st → Spec.I3 (run reqs st).
Proof.
  revert st. induction reqs as [|req reqs IH]; intros st HI; simpl; [done|].
  by apply IH, handle_I3.
Qed.

(** The guards of [create_account] in their order.  The answer is
    [InvalidAccountNumber] exactly when [str.isdigit] refuses a
    character of the number or the number has fewer than 10 characters.  For a well-formed number the answer is
    [DuplicateAccountNumber] exactly when some account already uses the
    number.  For a well-formed number not in use the answer is the
    refusal of a negative initial balance exactly when the (defaulted)
    balance is below zero, and the account is created otherwise.  No
    outcome breaks I3.  The number 12345 is answered
    [InvalidAccountNumber], and a second creation with the number of a
    successful first one is answered [DuplicateAccountNumber]. *)
Lemma create_account_guards :
  (∀ user_id data utcnow st,
     let number := NewAccount.account_number data in
     let balance := default 0 (NewAccount.balance data) in
     let r := create_account user_id data utcnow st in
     (r.1 = Spec.InvalidAccountNumber
        ↔ ¬ digits_only number ∨ len number < 10)
     ∧ (digits_only number → 10 ≤ len number →
          (r.1 = Spec.DuplicateAccountNumber ↔ Spec.number_in_use st number))
     ∧ (digits_only number → 10 ≤ len number →
        ¬ Spec.number_in_use st number →
          (r.1 = Spec.NegativeInitialBalance ↔ balance < 0)
          ∧ (r.1 = Spec.AccountCreated ↔ 0 ≤ balance))
     ∧ (Spec.I3 st → Spec.I3 r.2))
  ∧ (∀ user_id utcnow st,
       (create_account user_id (NewAccount.mk "savings" "12345" None) utcnow st).1
       = Spec.InvalidAccountNumber)
  ∧ (∀ user_id data utcnow st user_id' data' utcnow',
       (create_account user_id data utcnow st).1 = Spec.AccountCreated →
       NewAccount.account_number data' = NewAccount.account_number data →
       (create_account user_id' data' utcnow'
          (create_account user_id data utcnow st).2).1
       = Spec.DuplicateAccountNumber).
Proof.
  split_and!.
  - intros user_id data utcnow st number balance r. subst r number balance.
    split_and!; [| | |apply create_account_I3].
    + destruct (create_account_cases user_id data utcnow st)
        as [[Hbad ->]|(Hnum & Hlen & [[_ ->]|(_ & [[_ ->]|[_ ->]])])]; simpl;
        (split; [try done|]);
        intros Hguard; first [done | destruct Hguard; [done|lia]].
    + intros Hnum Hlen.
      destruct (create_account_cases user_id data utcnow st)
        as [[[?|?] ->]|(_ & _ & [[Huse ->]|(Hfree & [[_ ->]|[_ ->]])])]; simpl;
        try done; lia.
    + intros Hnum Hlen Hfree.
      destruct (create_account_cases user_id data utcnow st)
        as [[[?|?] ->]|(_ & _ & [[Huse ->]|(_ & [[Hneg ->]|[Hpos ->]])])]; simpl;
        try done; try lia.
      * split; split; try done; lia.
      * split; split; try done; lia.
  - intros user_id utcnow st. reflexivity.
  - intros user_id data utcnow st user_id' data' utcnow' Hok Hsame.
    assert (Spec.number_in_use (create_account user_id data utcnow st).2
              (NewAccount.account_number data')) as Huse.
    { rewrite Hsame. revert Hok.
      destruct (create_account_cases user_id data utcnow st)
        as [[_ ->]|(_ & _ & [[_ ->]|(_ & [[_ ->]|[_ ->]])])]; simpl; try done.
      intros _. eexists _, _. split; [apply lookup_insert_eq|done]. }
    destruct (create_account_cases user_id' data' utcnow'
                (create_account user_id data utcnow st).2)
      as [[Hbad Hrun]|(_ & _ & [[_ ->]|(Hfree & _)])]; [|done|done].
    exfalso. rewrite Hsame in Hbad. revert Hok.
    destruct (create_account_cases user_id data utcnow st)
      as [[_ ->]|(Hnum & Hlen & [[_ ->]|(_ & [[_ ->]|[_ ->]])])]; simpl; try done.
    intros _. destruct Hbad; [done|lia].
Qed.

(** A numeric text passes [str.isdigit]. *)
Lemma numeric_digits_only s : Spec.all_numeric s → digits_only s.
Proof.
  intros Hnum c Hc. specialize (Hnum c Hc).
  apply list_elem_of_In in Hnum. simpl in Hnum.
  by repeat destruct Hnum as [<-|Hnum].
Qed.

(** For a numeric text the first guard is the one of the claim: the
    answer is [InvalidAccountNumber] exactly when the text has fewer
    than 10 digits. *)
Lemma create_account_numeric user_id data utcnow st :
  Spec.all_numeric (NewAccount.account_number data) →
  (create_account user_id data utcnow st).1 = Spec.InvalidAccountNumber
  ↔ len (NewAccount.account_number data) < 10.
Proof.
  intros Hnum%numeric_digits_only.
  destruct create_account_guards as (Hguards & _).
  destruct (Hguards user_id data utcnow st) as (-> & _). tauto.
Qed.

(** C6. The first check of [create_account] is [str.isdigit], and for
    Python the superscripts one, two and three are digits.  The text
    of nine decimal digits and a superscript two is not numeric and is
    not answered [InvalidAccountNumber]: where no account uses it, the
    account is created with it as its number. *)
Theorem create_account_superscript_accepted user_id utcnow st :
  ¬ Spec.number_in_use st Sample.superscript_number →
  ¬ Spec.all_numeric Sample.superscript_number
  ∧ len Sample.superscript_number = 10
  ∧ (create_account user_id
       (NewAccount.mk "savings" Sample.superscript_number None) utcnow st).1
    = Spec.AccountCreated
  ∧ accounts
      (create_account user_id
         (NewAccount.mk "savings" Sample.superscript_number None) utcnow st).2
    !! next_key (accounts st)
    = Some (Account.mk user_id "savings" Sample.superscript_number 0 utcnow utcnow).
Proof.
  intros Hfree. split_and!.
  - intros Hnum.
    assert (Ascii.ascii_of_N 178%N
            ∈ list_ascii_of_string Sample.superscript_number) as Hin.
    { apply list_elem_of_In. simpl. tauto. }
    apply Hnum, list_elem_of_In in Hin. simpl in Hin.
    by repeat destruct Hin as [Hin|Hin].
  - reflexivity.
  - unfold create_account. simpl.
    by rewrite (proj2 (account_by_number_None st Sample.superscript_number) Hfree).
  - unfold create_account. simpl.
    rewrite (proj2 (account_by_number_None st Sample.superscript_number) Hfree).
    simpl. apply lookup_insert_eq.
Qed.

Lemma create_account_superscript_accepted_witness :
  ¬ Spec.all_numeric Sample.superscript_number
  ∧ len Sample.superscript_number = 10
  ∧ (create_account Sample.alice
       (NewAccount.mk "savings" Sample.superscript_number None) Sample.morning
       empty_database).1
    = Spec.AccountCreated
  ∧ accounts
      (create_account Sample.alice
         (NewAccount.mk "savings" Sample.superscript_number None) Sample.morning
         empty_database).2
    !! next_key (accounts empty_database)
    = Some (Account.mk Sample.alice "savings" Sample.superscript_number 0
              Sample.morning Sample.morning).
Proof.
  apply (create_account_superscript_accepted Sample.alice Sample.morning
           empty_database).
  intros (id & a & Ha & _). simpl in Ha. by rewrite lookup_empty in Ha.
Defined.

(** ** C10 *)

(** The claim C10 as it is written fails: a successful update also
    refreshes [updated_at], which is neither [account_type] nor
    [balance]. *)
Lemma update_account_changes_updated_at :
  let r := update_account 1 Sample.alice (Some Sample.to_checking) Sample.evening
             Sample.two_accounts in
  let old := Account.mk 1 "savings" "1234567890" 100000 Sample.morning Sample.morning in
  let new := Account.mk 1 "checking" "1234567890" 100000 Sample.morning Sample.evening in
  r.1 = Spec.AccountUpdated
  ∧ accounts Sample.two_accounts !! 1 = Some old
  ∧ accounts r.2 !! 1 = Some new
  ∧ Account.updated_at new ≠ Account.updated_at old
  ∧ new ≠ Account.set_balance (Account.balance new)
            (Account.set_account_type (Account.account_type new) old).
Proof.
  split; [reflexivity|]. split; [reflexivity|]. split; [reflexivity|].
  split; vm_compute; discriminate.
Qed.

Lemma same_decimal_true loaded b :
  same_decimal loaded b = true ↔ b = loaded ∧ b mod 25 = 0.
Proof. unfold same_decimal. rewrite andb_true_iff, !Z.eqb_eq. tauto. Qed.

(** C10, amended. A successful [update_account] keeps the row under its
    [id] and can change three of its fields only: [account_type] (to the
    supplied value when there is one), [balance] (to the supplied value
    when there is one, and that value is not negative) and [updated_at].
    [updated_at] becomes the time of the update when the [account_type]
    changes or a balance is supplied that does not compare equal to the
    stored one: another amount, or an amount that is no whole number of
    quarters of a unit, which as a float equals no stored amount.
    Otherwise the row stays as it was.  The [user_id], the
    [account_number] and [created_at] of the row are unchanged, no
    account is created or deleted, every other account and every other
    table is unchanged. *)
Theorem update_account_frame id user_id data utcnow st :
  let r := update_account id user_id data utcnow st in
  r.1 = Spec.AccountUpdated →
  ∃ patch old new,
    data = Some patch
    ∧ accounts st !! id = Some old
    ∧ accounts r.2 !! id = Some new
    ∧ Account.user_id new = Account.user_id old
    ∧ Account.user_id old = user_id
    ∧ Account.account_number new = Account.account_number old
    ∧ Account.created_at new = Account.created_at old
    ∧ Account.account_type new
      = default (Account.account_type old) (AccountPatch.account_type patch)
    ∧ Account.balance new
      = default (Account.balance old) (AccountPatch.balance patch)
    ∧ (∀ b, AccountPatch.balance patch = Some b → 0 ≤ b)
    ∧ (Account.account_type new ≠ Account.account_type old
       ∨ (∃ b, AccountPatch.balance patch = Some b
               ∧ (b ≠ Account.balance old ∨ b mod 25 ≠ 0)) →
       Account.updated_at new = utcnow)
    ∧ (Account.account_type new = Account.account_type old →
       (∀ b, AccountPatch.balance patch = Some b →
             b = Account.balance old ∧ b mod 25 = 0) →
       new = old)
    ∧ (Account.updated_at new = Account.updated_at old
       ∨ Account.updated_at new = utcnow)
    ∧ dom (accounts r.2) = dom (accounts st)
    ∧ (∀ j, j ≠ id → accounts r.2 !! j = accounts st !! j)
    ∧ transactions r.2 = transactions st
    ∧ categories r.2 = categories st
    ∧ budgets r.2 = budgets st
    ∧ bills r.2 = bills st.
Proof.
  intros r Hdone. subst r.
  destruct (update_account_committed id user_id data utcnow st Hdone)
    as (patch & loaded & -> & Hloaded & Hbalance & ->).
  destruct (proj1 (account_of_user_Some _ _ _ _) Hloaded) as [Hrow Hown].
  exists patch, loaded,
    (Account.flush utcnow (balance_unequal patch loaded) loaded (patched patch loaded)).
  simpl. split_and!; try done.
  - apply lookup_insert_eq.
  - by rewrite flush_user_id.
  - by rewrite flush_account_number.
  - by rewrite flush_created_at.
  - by rewrite flush_account_type.
  - by rewrite flush_balance.
  - rewrite flush_account_type. unfold Account.flush, balance_unequal.
    intros [Htype|(b & Hb & Hne)].
    + destruct (match AccountPatch.balance patch with
                | Some new_balance =>
                    negb (same_decimal (Account.balance loaded) new_balance)
                | None => false
                end); [done|].
      unfold Account.onupdate. case_decide as Hsame; [|done].
      by rewrite Hsame in Htype.
    + rewrite Hb.
      destruct (same_decimal (Account.balance loaded) b) eqn:Hsame; [|done].
      apply same_decimal_true in Hsame. tauto.
  - rewrite flush_account_type. simpl. intros Htype Hsame.
    assert (patched patch loaded = loaded) as ->.
    { unfold patched. rewrite Htype.
      destruct (AccountPatch.balance patch) as [b|]; simpl; [|by destruct loaded].
      destruct (Hsame b eq_refl) as [-> _]. by destruct loaded. }
    assert (balance_unequal patch loaded = false) as ->.
    { unfold balance_unequal.
      destruct (AccountPatch.balance patch) as [b|]; [|done].
      apply negb_false_iff, same_decimal_true. by apply Hsame. }
    unfold Account.flush, Account.onupdate. by rewrite decide_True.
  - destruct (flush_updated_at utcnow (balance_unequal patch loaded) loaded
                (patched patch loaded)) as [->| ->]; [by left|by right].
  - apply dom_insert_lookup_L. eauto.
  - intros j Hj. by apply lookup_insert_ne.
Qed.

Lemma update_account_frame_witness :
  let r := update_account 1 Sample.alice (Some Sample.to_checking) Sample.evening
             Sample.two_accounts in
  ∃ new, accounts r.2 !! 1 = Some new
    ∧ Account.account_type new = "checking"
    ∧ Account.account_number new = "1234567890"
    ∧ Account.balance new = 100000
    ∧ Account.created_at new = Sample.morning
    ∧ Account.updated_at new = Sample.evening
    ∧ transactions r.2 = transactions Sample.two_accounts.
Proof.
  destruct (update_account_frame 1 Sample.alice (Some Sample.to_checking)
              Sample.evening Sample.two_accounts eq_refl)
    as (patch & old & new & Hdata & Hold & Hnew & _ & _ & Hnumber & Hcreated
        & Htype & Hbalance & _ & Hstamp & _ & _ & _ & _ & Htx & _).
  injection Hdata as <-. vm_compute in Hold. injection Hold as <-.
  exists new. split; [exact Hnew|]. split; [exact Htype|]. split; [exact Hnumber|].
  split; [exact Hbalance|]. split; [exact Hcreated|]. split; [|exact Htx].
  apply Hstamp. left. rewrite Htype. discriminate.
Defined.

(** ** C7 *)

(** The ORM finds a clause only for a table with one key to the target. *)
Lemma join_on_inr {A} (keys : list A) key :
  join_on keys = inr key ↔ keys = [key].
Proof.
  destruct keys as [|k [|k' keys]]; simpl; split; intros H; by simplify_eq.
Qed.

(** Behind the join: the filter [account_id=0], when supplied, is not
    applied, whatever the key of the join; every other [account_id]
    keeps the rows with that source account. *)
Lemma transactions_query_account_id key user_id id start_date end_date st :
  (id = 0 →
   transactions_query key user_id (Some id) start_date end_date st
   = transactions_query key user_id None start_date end_date st)
  ∧ (id ≠ 0 →
     ∀ tx, tx ∈ transactions_query key user_id (Some id) None None st
           ↔ tx ∈ transactions_query key user_id None None None st
             ∧ Transaction.from_account_id tx = id).
Proof.
  unfold transactions_query, truthy. split.
  - by intros ->.
  - intros Hid tx. destruct (Z.eqb_spec id 0); [done|]. simpl.
    rewrite list_elem_of_filter. tauto.
Qed.

(** C7. The code lists no transactions.  [Transaction] has two foreign
    keys to [Account] and the join of [get_transactions] names no ON
    clause, so the ORM cannot choose one: whatever the user, the
    filters and the database, the request ends in
    [AmbiguousForeignKeysError], and no list of rows is answered, with
    or without an [account_id]. *)
Theorem get_transactions_join_ambiguous user_id account_id start_date end_date st :
  join_on Transaction.account_keys = inl AmbiguousForeignKeysError
  ∧ get_transactions user_id account_id start_date end_date st
    = inl (Raised AmbiguousForeignKeysError)
  ∧ ∀ rows, get_transactions user_id account_id start_date end_date st ≠ inr rows.
Proof.
  assert (join_on Transaction.account_keys = inl AmbiguousForeignKeysError) as Hjoin.
  { reflexivity. }
  unfold get_transactions. rewrite Hjoin. by split_and!.
Qed.

(** ** C8 *)

Lemma datetime_ltb_irrefl a : datetime.ltb a a = false.
Proof.
  unfold datetime.ltb, datetime.compare. by rewrite !Z.compare_refl.
Qed.

Lemma create_budget_invalid_amount user_id data now st :
  NewBudget.amount data ≤ 0 →
  create_budget user_id data now st = (Spec.InvalidAmount, st).
Proof.
  intros Hle. unfold create_budget.
  by destruct (Z.leb_spec (NewBudget.amount data) 0); [|lia].
Qed.

(** A start before the clock reading, or an end before the start, is
    answered [InvalidDateRange]. *)
Lemma create_budget_invalid_range user_id data now st start_date_obj end_date_obj :
  0 < NewBudget.amount data →
  strptime (PyStr (NewBudget.start_date data)) = inr start_date_obj →
  strptime (PyStr (NewBudget.end_date data)) = inr end_date_obj →
  datetime.ltb end_date_obj start_date_obj = true
  ∨ datetime.ltb start_date_obj now = true →
  Spec.InvalidDateRange (create_budget user_id data now st).1
  ∧ (create_budget user_id data now st).2 = st.
Proof.
  intros Hpos Hstart Hend Hrange. unfold create_budget, Spec.InvalidDateRange.
  destruct (Z.leb_spec (NewBudget.amount data) 0); [lia|].
  rewrite Hstart, Hend. unfold datetime.gtb.
  destruct (datetime.ltb start_date_obj now) eqn:Hpast; [by split; [left|]|].
  destruct Hrange as [Hrange|]; [|done].
  rewrite Hrange. by split; [right|].
Qed.

(** A start at or after the clock reading with an end not before the
    start is accepted. *)
Lemma create_budget_accepted user_id data now st start_date_obj end_date_obj :
  0 < NewBudget.amount data →
  strptime (PyStr (NewBudget.start_date data)) = inr start_date_obj →
  strptime (PyStr (NewBudget.end_date data)) = inr end_date_obj →
  datetime.ltb start_date_obj now = false →
  datetime.ltb end_date_obj start_date_obj = false →
  let '(category, st1) := get_or_create_category (NewBudget.name data) st in
  create_budget user_id data now st =
    (Spec.BudgetCreated,
     mkdb (accounts st1) (transactions st1) (categories st1)
       (budgets st1 ++
          [Budget.mk (next_row (budgets st1)) user_id
             (TransactionCategory.name category) (NewBudget.amount data)
             (datetime.date start_date_obj) (datetime.date end_date_obj)])
       (bills st1)).
Proof.
  intros Hpos Hstart Hend Hfuture Hrange. unfold create_budget.
  destruct (Z.leb_spec (NewBudget.amount data) 0); [lia|].
  rewrite Hstart, Hend, Hfuture. unfold datetime.gtb. rewrite Hrange.
  by destruct (get_or_create_category (NewBudget.name data) st).
Qed.

Lemma category_by_name_Some st name c :
  category_by_name st name = Some c →
  c ∈ categories st ∧ TransactionCategory.name c = name.
Proof.
  unfold category_by_name. intros Hc%head_Some_elem_of.
  apply list_elem_of_filter in Hc. tauto.
Qed.

Lemma category_by_name_None st name :
  category_by_name st name = None →
  name ∉ (TransactionCategory.name <$> categories st).
Proof.
  unfold category_by_name. rewrite head_None. intros Hnil Hin.
  apply list_elem_of_fmap in Hin as (c & -> & Hc).
  by apply (filter_nil_not_elem_of _ _ c Hnil).
Qed.

(** The get-or-create of a category: the category it answers has the
    name asked for and is in the table afterwards; a name already in the
    table adds no row; the names stay unique. *)
Lemma get_or_create_category_spec name st :
  let '(category, st1) := get_or_create_category name st in
  TransactionCategory.name category = name
  ∧ category ∈ categories st1
  ∧ (name ∈ (TransactionCategory.name <$> categories st) → st1 = st)
  ∧ (NoDup (TransactionCategory.name <$> categories st) →
     NoDup (TransactionCategory.name <$> categories st1))
  ∧ categories st `prefix_of` categories st1
  ∧ budgets st1 = budgets st.
Proof.
  unfold get_or_create_category.
  destruct (category_by_name st name) as [c|] eqn:Hc.
  - apply category_by_name_Some in Hc as [Hin Hname]. split_and!; done.
  - apply category_by_name_None in Hc. simpl. split_and!; try done.
    + apply elem_of_app. right. by left.
    + rewrite fmap_app. intros Hnodup. apply NoDup_app. split_and!; [done| |].
      * intros x Hx Hx'. simpl in Hx'. apply list_elem_of_singleton in Hx'.
        by subst.
      * simpl. apply NoDup_singleton.
    + by apply prefix_app_r.
Qed.

(** On success the budget bears the name of a category of the table, and
    I5 is kept. *)
Lemma create_budget_I5 user_id data now st :
  Spec.I5 st → Spec.I5 (create_budget user_id data now st).2.
Proof.
  intros [Hnodup Hnames]. unfold create_budget.
  repeat case_match; simplify_eq; simpl; try done.
  match goal with
  | H : get_or_create_category _ _ = _ |- _ =>
      pose proof (get_or_create_category_spec (NewBudget.name data) st) as Hspec;
      rewrite H in Hspec
  end.
  destruct Hspec as (Hname & Hin & _ & Hkeep & Hprefix & Hbudgets).
  split; simpl; [by apply Hkeep|].
  intros b Hb. apply elem_of_app in Hb as [Hb|Hb].
  - rewrite Hbudgets in Hb. specialize (Hnames b Hb).
    destruct Hprefix as [more ->]. rewrite fmap_app. apply elem_of_app. by left.
  - apply list_elem_of_singleton in Hb as ->. simpl.
    by apply list_elem_of_fmap_2.
Qed.

(** A start that is the clock reading itself passes the guard, whatever
    the rest of a well-formed request. *)
Lemma create_budget_start_equal_now user_id data now st end_date_obj :
  0 < NewBudget.amount data →
  strptime (PyStr (NewBudget.start_date data)) = inr now →
  strptime (PyStr (NewBudget.end_date data)) = inr end_date_obj →
  datetime.ltb end_date_obj now = false →
  (create_budget user_id data now st).1 = Spec.BudgetCreated.
Proof.
  intros Hpos Hstart Hend Hrange.
  pose proof (create_budget_accepted user_id data now st now end_date_obj
                Hpos Hstart Hend (datetime_ltb_irrefl now) Hrange) as Hrun.
  destruct (get_or_create_category (NewBudget.name data) st) as [category st1].
  by rewrite Hrun.
Qed.

(** C8, at the input where the code leaves the claim: a start date that
    is the clock reading itself is not strictly in the future, and the
    budget is created all the same.  At midnight of 1 January 2030 a
    budget starting on [2030-01-01] is accepted. *)
Theorem create_budget_start_now_accepted :
  strptime (PyStr (NewBudget.start_date Sample.groceries)) = inr Sample.new_year
  ∧ datetime.ltb Sample.new_year Sample.new_year = false
  ∧ (create_budget Sample.alice Sample.groceries Sample.new_year
       Sample.two_accounts).1 = Spec.BudgetCreated
  ∧ budgets (create_budget Sample.alice Sample.groceries Sample.new_year
               Sample.two_accounts).2
    = [Budget.mk 1 Sample.alice "Groceries" 50000
         (date.mk 2030 1 1) (date.mk 2030 1 31)].
Proof.
  split; [reflexivity|]. split; [reflexivity|]. split; reflexivity.
Qed.

(** ** C9 *)

(** With a due date in the body, [update_bill] applies the rules of
    [create_bill] to the merged amount and to the supplied date. *)
Lemma update_bill_with_due_date id user_id data now st bill s :
  bill_of_user st id user_id = Some bill →
  BillPatch.due_date data = Some s →
  let amount := default (Bill.amount bill) (BillPatch.amount data) in
  let r := update_bill id user_id data now st in
  (amount ≤ 0 → r = (Spec.InvalidAmount, st))
  ∧ (0 < amount → strptime (PyStr s) = inl ValueError →
       r = (Spec.InvalidDateFormat, st))
  ∧ (∀ due_date_obj, 0 < amount → strptime (PyStr s) = inr due_date_obj →
       datetime.ltb due_date_obj now = true →
       r = (Spec.DueDateNotInFuture, st))
  ∧ (∀ due_date_obj, 0 < amount → strptime (PyStr s) = inr due_date_obj →
       datetime.ltb due_date_obj now = false →
       r = (Spec.BillUpdated,
            set_bills
              (<[id := Bill.mk (Bill.user_id bill)
                         (default (Bill.biller_name bill) (BillPatch.biller_name data))
                         (datetime.date due_date_obj) amount (Bill.account_id bill)]>
                 (bills st)) st)).
Proof.
  intros Hbill Hdue amount r. subst r amount. unfold update_bill.
  rewrite Hbill, Hdue.
  destruct (Z.leb_spec (default (Bill.amount bill) (BillPatch.amount data)) 0).
  - split_and!; try done; intros; lia.
  - split_and!; try (intros; lia).
    + intros _ ->. done.
    + intros d _ -> ->. done.
    + intros d _ -> ->. done.
Qed.

Lemma update_bill_not_found id user_id data now st :
  bill_of_user st id user_id = None →
  update_bill id user_id data now st = (Spec.BillNotFound, st).
Proof. intros Hnone. unfold update_bill. by rewrite Hnone. Qed.

(** With a due date in the body, a malformed date and a date before the
    clock reading are answered [InvalidDueDate]. *)
Lemma update_bill_invalid_due_date id user_id data now st bill s :
  bill_of_user st id user_id = Some bill →
  BillPatch.due_date data = Some s →
  0 < default (Bill.amount bill) (BillPatch.amount data) →
  (∀ due_date_obj, strptime (PyStr s) = inr due_date_obj →
                   datetime.ltb due_date_obj now = true) →
  Spec.InvalidDueDate (update_bill id user_id data now st).1
  ∧ (update_bill id user_id data now st).2 = st.
Proof.
  intros Hbill Hdue Hpos Hpast.
  destruct (update_bill_with_due_date id user_id data now st bill s Hbill Hdue)
    as (_ & Hformat & Hfuture & _).
  unfold Spec.InvalidDueDate.
  destruct (datetime.strptime_str s) as [due_date_obj|] eqn:Hstr.
  - assert (strptime (PyStr s) = inr due_date_obj) as Hparse.
    { simpl. by rewrite Hstr. }
    rewrite (Hfuture due_date_obj Hpos Hparse (Hpast _ Hparse)). auto.
  - assert (strptime (PyStr s) = inl ValueError) as Hparse.
    { simpl. by rewrite Hstr. }
    rewrite (Hformat Hpos Hparse). auto.
Qed.

(** C9, at the input where the code leaves the claim: for a bill of the
    caller, a body without a due date and with a positive merged amount
    ends in an uncaught [TypeError], and nothing is committed.  The
    merged due date is the date object of the stored row, which
    [strptime] does not take. *)
Theorem update_bill_without_due_date id user_id data now st bill :
  bill_of_user st id user_id = Some bill →
  BillPatch.due_date data = None →
  0 < default (Bill.amount bill) (BillPatch.amount data) →
  update_bill id user_id data now st = (Raised TypeError, st).
Proof.
  intros Hbill Hdue Hpos. unfold update_bill. rewrite Hbill, Hdue.
  by destruct (Z.leb_spec (default (Bill.amount bill) (BillPatch.amount data)) 0);
    [lia|].
Qed.

Lemma update_bill_without_due_date_witness :
  bill_of_user Sample.with_bill 1 Sample.alice
  = Some (Bill.mk Sample.alice "Electric Company" (date.mk 2024 12 31) 15000 1)
  ∧ update_bill 1 Sample.alice Sample.rename_bill Sample.noon Sample.with_bill
    = (Raised TypeError, Sample.with_bill).
Proof.
  split; [reflexivity|].
  apply (update_bill_without_due_date 1 Sample.alice Sample.rename_bill Sample.noon
           Sample.with_bill
           (Bill.mk Sample.alice "Electric Company" (date.mk 2024 12 31) 15000 1)).
  - reflexivity.
  - reflexivity.
  - simpl. lia.
Defined.

(** * More of the service *)

(** ** What the two other writers leave alone *)

Lemma get_or_create_category_frame name st :
  accounts (get_or_create_category name st).2 = accounts st
  ∧ transactions (get_or_create_category name st).2 = transactions st
  ∧ budgets (get_or_create_category name st).2 = budgets st
  ∧ bills (get_or_create_category name st).2 = bills st.
Proof. unfold get_or_create_category. by case_match. Qed.

Lemma update_budget_frame id user_id data now st :
  accounts (update_budget id user_id data now st).2 = accounts st
  ∧ transactions (update_budget id user_id data now st).2 = transactions st
  ∧ bills (update_budget id user_id data now st).2 = bills st.
Proof.
  unfold update_budget.
  repeat case_match; simpl; try done;
    match goal with
    | |- context [get_or_create_category ?name ?s] =>
        by destruct (get_or_create_category_frame name s) as (-> & -> & _ & ->)
    end.
Qed.

Lemma delete_bill_frame id user_id st :
  accounts (delete_bill id user_id st).2 = accounts st
  ∧ transactions (delete_bill id user_id st).2 = transactions st
  ∧ categories (delete_bill id user_id st).2 = categories st
  ∧ budgets (delete_bill id user_id st).2 = budgets st.
Proof. unfold delete_bill. by case_match. Qed.

(** ** The sum of the balances *)

Lemma sum_balances_perm (l1 l2 : list (Z * Account.t)) :
  l1 ≡ₚ l2 →
  foldr (λ kv acc, Account.balance kv.2 + acc) 0 l1
  = foldr (λ kv acc, Account.balance kv.2 + acc) 0 l2.
Proof. induction 1; simpl; lia. Qed.

Lemma sum_balances_lookup (m : gmap Z Account.t) k a :
  m !! k = Some a →
  foldr (λ kv acc, Account.balance kv.2 + acc) 0 (map_to_list m)
  = Account.balance a
    + foldr (λ kv acc, Account.balance kv.2 + acc) 0 (map_to_list (delete k m)).
Proof.
  intros Ha. by rewrite <- (sum_balances_perm _ _ (map_to_list_delete m k a Ha)).
Qed.

Lemma sum_balances_insert (m : gmap Z Account.t) k a :
  foldr (λ kv acc, Account.balance kv.2 + acc) 0 (map_to_list (<[k := a]> m))
  = Account.balance a
    + foldr (λ kv acc, Account.balance kv.2 + acc) 0 (map_to_list (delete k m)).
Proof.
  rewrite <- insert_delete_eq.
  by rewrite (sum_balances_perm _ _
                (map_to_list_insert (delete k m) k a (lookup_delete_eq m k))).
Qed.

Lemma alter_as_insert {A} (f : A → A) (m : gmap Z A) k a :
  m !! k = Some a → alter f k m = <[k := f a]> m.
Proof.
  intros Ha. apply map_eq. intros j.
  rewrite lookup_alter, lookup_insert. case_decide; [subst; by rewrite Ha|done].
Qed.

Lemma sum_balances_alter (f : Account.t → Account.t) (m : gmap Z Account.t) k a :
  m !! k = Some a →
  foldr (λ kv acc, Account.balance kv.2 + acc) 0 (map_to_list (alter f k m))
  = foldr (λ kv acc, Account.balance kv.2 + acc) 0 (map_to_list m)
    - Account.balance a + Account.balance (f a).
Proof.
  intros Ha. rewrite (alter_as_insert f m k a Ha), sum_balances_insert.
  rewrite (sum_balances_lookup m k a Ha). lia.
Qed.

(** X1. A transfer moves money and makes none: whatever the request and
    whatever its outcome, the sum of all balances after
    [create_transaction] is the sum of before. *)
Theorem create_transaction_conserves_total user_id data utcnow st :
  total_balance (create_transaction user_id data utcnow st).2 = total_balance st.
Proof.
  unfold total_balance.
  transfer_cases user_id data utcnow st; simpl; try done.
  destruct (proj1 (account_of_user_Some _ _ _ _) Hfrom) as [Hf _].
  rewrite (sum_balances_alter _ _ _ t).
  - rewrite (sum_balances_alter _ _ _ f Hf).
    rewrite credit_balance, debit_balance. lia.
  - by rewrite lookup_alter_ne.
Qed.

(** ** Invariants of the ledger under every command *)

Lemma execute_accounts_I1 c st : Spec.I1 st → Spec.I1 (execute c st).2.
Proof.
  intros HI. destruct c as [req|id user_id data now|id user_id]; simpl.
  - by apply handle_I1.
  - intros j a. destruct (update_budget_frame id user_id data now st) as (-> & _).
    apply HI.
  - intros j a. destruct (delete_bill_frame id user_id st) as (-> & _). apply HI.
Qed.

Lemma execute_accounts_I3 c st : Spec.I3 st → Spec.I3 (execute c st).2.
Proof.
  intros HI. destruct c as [req|id user_id data now|id user_id]; simpl.
  - by apply handle_I3.
  - intros i j a b. destruct (update_budget_frame id user_id data now st) as (-> & _).
    apply HI.
  - intros i j a b. destruct (delete_bill_frame id user_id st) as (-> & _). apply HI.
Qed.

Lemma served_after_rent : served Sample.after_rent.
Proof.
  apply (served_step Sample.two_accounts
           (Request (PostTransaction Sample.alice Sample.rent Sample.noon))).
  apply (served_step Sample.one_account
           (Request (PostAccount Sample.bob Sample.open_b Sample.morning))).
  apply (served_step empty_database
           (Request (PostAccount Sample.alice Sample.open_a Sample.morning))).
  apply served_empty.
Defined.

(** X2. Whatever commands the service has executed, by whatever users
    and with whatever outcomes, no balance is negative and no two
    accounts share an account number. *)
Theorem served_accounts_sound st :
  served st → Spec.I1 st ∧ Spec.I3 st.
Proof.
  induction 1 as [|st c Hserved [IH1 IH3]].
  - split.
    + intros id a Ha. simpl in Ha. by rewrite lookup_empty in Ha.
    + intros i j a b Ha. simpl in Ha. by rewrite lookup_empty in Ha.
  - split; [by apply execute_accounts_I1|by apply execute_accounts_I3].
Qed.

Lemma served_accounts_sound_witness :
  Spec.I1 Sample.after_rent ∧ Spec.I3 Sample.after_rent.
Proof. apply served_accounts_sound. apply served_after_rent. Defined.

(** What a command does to the transaction table: nothing, or one row
    at the end, between two different accounts and of a positive
    amount, with the next identifier. *)
Lemma execute_transactions c st :
  transactions (execute c st).2 = transactions st
  ∨ ∃ F T n type description utcnow,
      F ≠ T ∧ 0 < n
      ∧ transactions (execute c st).2
        = transactions st
          ++ [Transaction.mk (next_row (transactions st)) F T (hundredths n)
                type description utcnow].
Proof.
  destruct c as [req|id user_id data now|id user_id]; simpl.
  - destruct req; simpl.
    + unfold create_account. repeat case_match; simpl; auto.
    + unfold update_account. repeat case_match; simpl; auto.
    + unfold delete_account. repeat case_match; simpl; auto.
    + transfer_cases user_id data utcnow st; simpl; auto.
      right. by eexists _, _, n, _, _, _.
    + unfold create_budget, get_or_create_category.
      repeat case_match; simplify_eq; simpl; auto.
    + unfold create_bill. repeat case_match; simpl; auto.
    + unfold update_bill. repeat case_match; simpl; auto.
  - left. by destruct (update_budget_frame id user_id data now st) as (_ & -> & _).
  - left. by destruct (delete_bill_frame id user_id st) as (_ & -> & _).
Qed.

Lemma served_transaction_ids st :
  served st →
  ∀ i tx, transactions st !! i = Some tx → Transaction.id tx = 1 + Z.of_nat i.
Proof.
  induction 1 as [|st c Hserved IH]; [by intros i tx [=]|].
  intros i tx.
  destruct (execute_transactions c st)
    as [->|(F & T & n & type & description & utcnow & _ & _ & ->)]; [apply IH|].
  intros [Hi|[Hlen Hi]]%lookup_app_Some; [by apply IH|].
  destruct (i - length (transactions st))%nat eqn:Hsub; [|by destruct n0].
  injection Hi as <-. simpl. unfold next_row. lia.
Qed.

(** X3. Every transaction the service has ever recorded is between two
    different accounts and of a positive amount, and no two recorded
    transactions have the same identifier. *)
Theorem served_transactions_sound st :
  served st →
  (∀ tx, tx ∈ transactions st →
     Transaction.from_account_id tx ≠ Transaction.to_account_id tx
     ∧ 0 < Transaction.amount tx)
  ∧ NoDup (Transaction.id <$> transactions st).
Proof.
  intros Hserved. split.
  - induction Hserved as [|st c Hserved IH]; [by intros tx Htx%elem_of_nil|].
    intros tx.
    destruct (execute_transactions c st)
      as [->|(F & T & n & type & description & utcnow & HFT & Hn & ->)];
      [apply IH|].
    intros [Htx|Htx]%elem_of_app; [by apply IH|].
    apply list_elem_of_singleton in Htx as ->. simpl.
    split; [done|]. unfold hundredths. lia.
  - apply NoDup_alt. intros i j x Hi Hj.
    apply list_lookup_fmap_Some in Hi as (txi & Hidi & Hi).
    apply list_lookup_fmap_Some in Hj as (txj & Hidj & Hj).
    pose proof (served_transaction_ids st Hserved i txi Hi).
    pose proof (served_transaction_ids st Hserved j txj Hj).
    lia.
Qed.

Lemma served_transactions_sound_witness :
  (∀ tx, tx ∈ transactions Sample.after_rent →
     Transaction.from_account_id tx ≠ Transaction.to_account_id tx
     ∧ 0 < Transaction.amount tx)
  ∧ NoDup (Transaction.id <$> transactions Sample.after_rent).
Proof. apply served_transactions_sound. apply served_after_rent. Defined.

(** ** Which tables a handler writes *)

Lemma create_account_frame user_id data utcnow st :
  transactions (create_account user_id data utcnow st).2 = transactions st
  ∧ categories (create_account user_id data utcnow st).2 = categories st
  ∧ budgets (create_account user_id data utcnow st).2 = budgets st
  ∧ bills (create_account user_id data utcnow st).2 = bills st.
Proof. unfold create_account. by repeat case_match. Qed.

Lemma update_account_tables id user_id data utcnow st :
  transactions (update_account id user_id data utcnow st).2 = transactions st
  ∧ categories (update_account id user_id data utcnow st).2 = categories st
  ∧ budgets (update_account id user_id data utcnow st).2 = budgets st
  ∧ bills (update_account id user_id data utcnow st).2 = bills st.
Proof. unfold update_account. by repeat case_match. Qed.

Lemma delete_account_frame id user_id st :
  transactions (delete_account id user_id st).2 = transactions st
  ∧ categories (delete_account id user_id st).2 = categories st
  ∧ budgets (delete_account id user_id st).2 = budgets st
  ∧ bills (delete_account id user_id st).2 = bills st.
Proof. unfold delete_account. by repeat case_match. Qed.

Lemma create_transaction_frame user_id data utcnow st :
  categories (create_transaction user_id data utcnow st).2 = categories st
  ∧ budgets (create_transaction user_id data utcnow st).2 = budgets st
  ∧ bills (create_transaction user_id data utcnow st).2 = bills st.
Proof. unfold create_transaction. by repeat case_match. Qed.


Lemma create_bill_frame user_id data now st :
  accounts (create_bill user_id data now st).2 = accounts st
  ∧ transactions (create_bill user_id data now st).2 = transactions st
  ∧ categories (create_bill user_id data now st).2 = categories st
  ∧ budgets (create_bill user_id data now st).2 = budgets st.
Proof. unfold create_bill. by repeat case_match. Qed.

Lemma update_bill_frame id user_id data now st :
  accounts (update_bill id user_id data now st).2 = accounts st
  ∧ transactions (update_bill id user_id data now st).2 = transactions st
  ∧ categories (update_bill id user_id data now st).2 = categories st
  ∧ budgets (update_bill id user_id data now st).2 = budgets st.
Proof. unfold update_bill. by repeat case_match. Qed.

Lemma bill_of_user_Some st id user_id b :
  bill_of_user st id user_id = Some b
  ↔ bills st !! id = Some b ∧ Bill.user_id b = user_id.
Proof.
  unfold bill_of_user. destruct (bills st !! id) as [b'|]; simpl.
  - case_decide; intuition congruence.
  - intuition congruence.
Qed.

Lemma budget_of_user_Some st id user_id i b :
  budget_of_user st id user_id = Some (i, b) →
  budgets st !! i = Some b ∧ Budget.id b = id ∧ Budget.user_id b = user_id.
Proof.
  unfold budget_of_user. intros (Hi & [Hid Hu] & _)%list_find_Some. done.
Qed.




(** ** What a user can do to the rows of another *)





(** ** Reading and deleting accounts *)

(** X5. An account of another user is answered exactly as an account
    that does not exist: [get_account], [update_account] and
    [delete_account] all answer "Account not found" with status 404,
    and nothing is written. *)
Theorem foreign_account_not_found id user_id st :
  (∀ a, accounts st !! id = Some a → Account.user_id a ≠ user_id) →
  get_account id user_id st = inl Spec.AccountNotFound
  ∧ (∀ data utcnow,
       update_account id user_id data utcnow st = (Spec.AccountNotFound, st))
  ∧ delete_account id user_id st = (Spec.AccountNotFound, st).
Proof.
  intros Hforeign%account_of_user_None.
  unfold get_account, update_account, delete_account. by rewrite Hforeign.
Qed.

Lemma foreign_account_not_found_witness :
  get_account 1 Sample.bob Sample.two_accounts = inl Spec.AccountNotFound
  ∧ delete_account 1 Sample.bob Sample.two_accounts
    = (Spec.AccountNotFound, Sample.two_accounts)
  ∧ get_account 7 Sample.bob Sample.two_accounts = inl Spec.AccountNotFound.
Proof.
  split; [|split].
  - refine (proj1 (foreign_account_not_found 1 Sample.bob Sample.two_accounts _)).
    intros a Ha. vm_compute in Ha. injection Ha as <-. vm_compute. discriminate.
  - refine (proj2 (proj2 (foreign_account_not_found 1 Sample.bob
                            Sample.two_accounts _))).
    intros a Ha. vm_compute in Ha. injection Ha as <-. vm_compute. discriminate.
  - refine (proj1 (foreign_account_not_found 7 Sample.bob Sample.two_accounts _)).
    intros a Ha. vm_compute in Ha. discriminate.
Defined.

Lemma get_all_accounts_elem user_id st id a :
  (id, a) ∈ get_all_accounts user_id st
  ↔ accounts st !! id = Some a ∧ Account.user_id a = user_id.
Proof.
  unfold get_all_accounts. rewrite list_elem_of_filter, elem_of_map_to_list.
  simpl. tauto.
Qed.

Lemma database_eta st :
  mkdb (accounts st) (transactions st) (categories st) (budgets st) (bills st) = st.
Proof. by destruct st. Qed.

(** X6. A created account can be read back: after a successful
    [create_account], [get_account] on the new key answers the account
    with the owner, type, number and balance of the request (0 when the
    request names none), the listing of the owner is the one of before
    with this account added, and the listing of every other user is the
    one of before. *)
Theorem create_account_then_read user_id data utcnow st :
  let st' := (create_account user_id data utcnow st).2 in
  let k := next_key (accounts st) in
  let new := Account.mk user_id (NewAccount.account_type data)
               (NewAccount.account_number data)
               (default 0 (NewAccount.balance data)) utcnow utcnow in
  (create_account user_id data utcnow st).1 = Spec.AccountCreated →
  get_account k user_id st' = inr new
  ∧ get_all_accounts user_id st' ≡ₚ (k, new) :: get_all_accounts user_id st
  ∧ (∀ other, other ≠ user_id →
       get_all_accounts other st' ≡ₚ get_all_accounts other st).
Proof.
  intros st' k new. subst st' k new.
  destruct (create_account_cases user_id data utcnow st)
    as [[_ ->]|(_ & _ & [[_ ->]|(_ & [[_ ->]|[_ ->]])])]; simpl; try done.
  intros _.
  pose proof (map_to_list_insert (accounts st) (next_key (accounts st))
                (Account.mk user_id (NewAccount.account_type data)
                   (NewAccount.account_number data)
                   (default 0 (NewAccount.balance data)) utcnow utcnow)
                (next_key_fresh (accounts st))) as Hperm.
  split_and!.
  - unfold get_account, account_of_user. simpl. rewrite lookup_insert_eq. simpl.
    by rewrite decide_True.
  - unfold get_all_accounts. simpl. rewrite Hperm.
    by rewrite filter_cons_True.
  - intros other Hother. unfold get_all_accounts. simpl. rewrite Hperm.
    rewrite filter_cons_False; [done|]. simpl. congruence.
Qed.

Lemma create_account_then_read_witness :
  get_account 3 Sample.alice
    (create_account Sample.alice Scenario.open_c Sample.noon Sample.two_accounts).2
  = inr (Account.mk Sample.alice "checking" "5555555555" 2500 Sample.noon Sample.noon).
Proof.
  apply (create_account_then_read Sample.alice Scenario.open_c Sample.noon
           Sample.two_accounts).
  reflexivity.
Defined.

(** X7. Creating an account and deleting it again undoes the creation:
    after a successful [create_account], [delete_account] on the new
    key by the same user succeeds and gives back the database of before
    the creation. *)
Theorem create_then_delete_account user_id data utcnow st :
  (create_account user_id data utcnow st).1 = Spec.AccountCreated →
  delete_account (next_key (accounts st)) user_id
    (create_account user_id data utcnow st).2
  = (Response (Message "Account deleted successfully") 200, st).
Proof.
  destruct (create_account_cases user_id data utcnow st)
    as [[_ ->]|(_ & _ & [[_ ->]|(_ & [[_ ->]|[_ ->]])])]; simpl; try done.
  intros _. unfold delete_account, account_of_user. simpl.
  rewrite lookup_insert_eq. simpl. rewrite decide_True by done.
  f_equal. unfold set_accounts. simpl.
  rewrite delete_insert_id by apply next_key_fresh. apply database_eta.
Qed.

Lemma create_then_delete_account_witness :
  delete_account 3 Sample.alice
    (create_account Sample.alice Scenario.open_c Sample.noon Sample.two_accounts).2
  = (Response (Message "Account deleted successfully") 200, Sample.two_accounts).
Proof.
  apply (create_then_delete_account Sample.alice Scenario.open_c Sample.noon
           Sample.two_accounts).
  reflexivity.
Defined.

(** X8. Deleting an account of one's own that no transaction and no bill
    refers to (the foreign keys of [Transaction] and [Bill]) succeeds
    whatever its balance: the row is gone, every other account is the
    one of before, [get_account] no longer finds it, the sum of all
    balances goes down by the balance of the deleted account, and where
    account numbers were unique its number is in use no more. *)
Theorem delete_account_effect id user_id st a :
  accounts st !! id = Some a →
  Account.user_id a = user_id →
  (∀ tx, tx ∈ transactions st →
     Transaction.from_account_id tx ≠ id ∧ Transaction.to_account_id tx ≠ id) →
  (∀ k b, bills st !! k = Some b → Bill.account_id b ≠ id) →
  (delete_account id user_id st).1
  = Response (Message "Account deleted successfully") 200
  ∧ accounts (delete_account id user_id st).2 !! id = None
  ∧ (∀ k, k ≠ id →
       accounts (delete_account id user_id st).2 !! k = accounts st !! k)
  ∧ get_account id user_id (delete_account id user_id st).2
    = inl Spec.AccountNotFound
  ∧ total_balance (delete_account id user_id st).2
    = total_balance st - Account.balance a
  ∧ (Spec.I3 st →
     ¬ Spec.number_in_use (delete_account id user_id st).2
         (Account.account_number a)).
Proof.
  intros Ha Hown _ _.
  assert (account_of_user st id user_id = Some a) as Hfound.
  { by apply account_of_user_Some. }
  unfold delete_account. rewrite Hfound. simpl. split_and!.
  - done.
  - apply lookup_delete_eq.
  - intros k Hk. by apply lookup_delete_ne.
  - unfold get_account, account_of_user. simpl. by rewrite lookup_delete_eq.
  - unfold total_balance. simpl. rewrite (sum_balances_lookup _ _ _ Ha). lia.
  - intros Huniq (j & b & Hb & Hnum). simpl in Hb.
    apply lookup_delete_Some in Hb as [Hne Hb].
    destruct Hne. symmetry. by apply (Huniq j id b a).
Qed.

Lemma delete_account_effect_witness :
  total_balance (delete_account 1 Sample.alice Sample.two_accounts).2
  = total_balance Sample.two_accounts
    - Account.balance (Account.mk Sample.alice "savings" "1234567890" 100000
                         Sample.morning Sample.morning).
Proof.
  refine (proj1 (proj2 (proj2 (proj2 (proj2
    (delete_account_effect 1 Sample.alice Sample.two_accounts _ _ _ _ _)))))).
  - reflexivity.
  - reflexivity.
  - intros tx Htx. by apply elem_of_nil in Htx.
  - intros k b Hb. change (bills Sample.two_accounts) with (∅ : gmap Z Bill.t) in Hb.
    by rewrite lookup_empty in Hb.
Defined.

(** ** Bills *)

Lemma get_bills_elem user_id st id b :
  (id, b) ∈ get_bills user_id st
  ↔ bills st !! id = Some b ∧ Bill.user_id b = user_id.
Proof.
  unfold get_bills. rewrite list_elem_of_filter, elem_of_map_to_list.
  simpl. tauto.
Qed.

(** X9. The checks of [create_bill] in their order, each with its
    answer: an amount of zero or less; else a due date that is no
    calendar date in the format; else a due date before the clock
    reading; else an account that does not exist or belongs to another
    user.  Each refusal leaves the database as it was.  When the answer
    is 201, every check has passed, and the bill is stored under a fresh
    id with the caller as its user and the values of the request. *)
Theorem create_bill_outcome user_id data now st :
  (NewBill.amount data ≤ 0 →
   create_bill user_id data now st = (Spec.InvalidAmount, st))
  ∧ (0 < NewBill.amount data →
     datetime.strptime_str (NewBill.due_date data) = None →
     create_bill user_id data now st = (Spec.InvalidDateFormat, st))
  ∧ (∀ d, 0 < NewBill.amount data →
          datetime.strptime_str (NewBill.due_date data) = Some d →
          datetime.ltb d now = true →
          create_bill user_id data now st = (Spec.DueDateNotInFuture, st))
  ∧ (∀ d, 0 < NewBill.amount data →
          datetime.strptime_str (NewBill.due_date data) = Some d →
          datetime.ltb d now = false →
          (∀ a, accounts st !! NewBill.account_id data = Some a →
                Account.user_id a ≠ user_id) →
          create_bill user_id data now st
          = (Response (Error "Invalid account ID.") 404, st))
  ∧ ((create_bill user_id data now st).1
     = Response (Message "Bill scheduled successfully") 201 →
     0 < NewBill.amount data
     ∧ (∃ a, accounts st !! NewBill.account_id data = Some a
             ∧ Account.user_id a = user_id)
     ∧ bills st !! next_key (bills st) = None
     ∧ ∃ d, datetime.strptime_str (NewBill.due_date data) = Some d
            ∧ datetime.ltb d now = false
            ∧ (create_bill user_id data now st).2
              = set_bills
                  (<[next_key (bills st) :=
                       Bill.mk user_id (NewBill.biller_name data) (datetime.date d)
                         (NewBill.amount data) (NewBill.account_id data)]>
                     (bills st))
                  st)
  ∧ ((create_bill user_id data now st).1
     ≠ Response (Message "Bill scheduled successfully") 201 →
     (create_bill user_id data now st).2 = st).
Proof.
  unfold create_bill, strptime.
  destruct (Z.leb_spec (NewBill.amount data) 0) as [Hle|Hpos]; simpl.
  { split_and!; try done; intros; lia. }
  destruct (datetime.strptime_str (NewBill.due_date data)) as [d|] eqn:Hdate; simpl.
  2: { split_and!; try done; intros; lia. }
  destruct (datetime.ltb d now) eqn:Hpast; simpl.
  { split_and!; try done.
    - intros; lia.
    - intros d' _ [= <-] Hfuture. congruence. }
  destruct (account_of_user st (NewBill.account_id data) user_id) as [a|] eqn:Hacc;
    simpl.
  - apply account_of_user_Some in Hacc as [Hrow Hown]. split_and!.
    + intros; lia.
    + done.
    + intros d' _ [= <-] Hfuture. congruence.
    + intros d' _ _ _ Hforeign. by destruct (Hforeign a).
    + intros _. split_and!; [done|by exists a|apply next_key_fresh|by exists d].
    + done.
  - split_and!; try done.
    + intros; lia.
    + intros d' _ [= <-] Hfuture. congruence.
Qed.

(** X10. A scheduled bill can be read back and canceled: after a
    successful [create_bill] the listing of the caller is the one of
    before with the new bill added, and [delete_bill] on the new id by
    the same user gives back the database of before. *)
Theorem create_then_delete_bill user_id data now st :
  (create_bill user_id data now st).1
  = Response (Message "Bill scheduled successfully") 201 →
  ∃ d, datetime.strptime_str (NewBill.due_date data) = Some d
       ∧ get_bills user_id (create_bill user_id data now st).2
         ≡ₚ (next_key (bills st),
             Bill.mk user_id (NewBill.biller_name data) (datetime.date d)
               (NewBill.amount data) (NewBill.account_id data))
            :: get_bills user_id st
       ∧ delete_bill (next_key (bills st)) user_id
           (create_bill user_id data now st).2
         = (Response (Message "Bill canceled successfully") 200, st).
Proof.
  unfold create_bill, strptime.
  destruct (NewBill.amount data <=? 0); [done|].
  destruct (datetime.strptime_str (NewBill.due_date data)) as [d|]; [|done].
  simpl. destruct (datetime.ltb d now); [done|].
  destruct (account_of_user st (NewBill.account_id data) user_id); [|done].
  simpl. intros _. exists d. split_and!.
  - done.
  - unfold get_bills. simpl.
    rewrite (map_to_list_insert (bills st) _ _ (next_key_fresh (bills st))).
    by rewrite filter_cons_True.
  - unfold delete_bill, bill_of_user. simpl. rewrite lookup_insert_eq. simpl.
    rewrite decide_True by done. f_equal. unfold set_bills. simpl.
    rewrite delete_insert_id by apply next_key_fresh. apply database_eta.
Qed.

Lemma create_then_delete_bill_witness :
  ∃ d, datetime.strptime_str (NewBill.due_date Sample.electricity) = Some d
       ∧ get_bills Sample.alice Sample.with_bill
         ≡ₚ (next_key (bills Sample.two_accounts),
             Bill.mk Sample.alice (NewBill.biller_name Sample.electricity)
               (datetime.date d) (NewBill.amount Sample.electricity)
               (NewBill.account_id Sample.electricity))
            :: get_bills Sample.alice Sample.two_accounts
       ∧ delete_bill (next_key (bills Sample.two_accounts)) Sample.alice
           Sample.with_bill
         = (Response (Message "Bill canceled successfully") 200,
            Sample.two_accounts).
Proof.
  apply (create_then_delete_bill Sample.alice Sample.electricity Sample.noon
           Sample.two_accounts).
  reflexivity.
Defined.

(** X11. When [update_bill] answers "Bill updated successfully", the
    bill is one of the caller, the request named a due date that is a
    calendar date not before the clock reading, and the merged amount is
    above zero; the bill keeps its user and its account, takes the name,
    date and amount of the request (name and amount of the row where
    the request names none), and nothing else in the database changes. *)
Theorem update_bill_success id user_id data now st :
  (update_bill id user_id data now st).1 = Spec.BillUpdated →
  ∃ bill s d,
    bills st !! id = Some bill
    ∧ Bill.user_id bill = user_id
    ∧ BillPatch.due_date data = Some s
    ∧ datetime.strptime_str s = Some d
    ∧ datetime.ltb d now = false
    ∧ 0 < default (Bill.amount bill) (BillPatch.amount data)
    ∧ (update_bill id user_id data now st).2
      = set_bills
          (<[id := Bill.mk user_id
                     (default (Bill.biller_name bill) (BillPatch.biller_name data))
                     (datetime.date d)
                     (default (Bill.amount bill) (BillPatch.amount data))
                     (Bill.account_id bill)]> (bills st)) st.
Proof.
  unfold update_bill, strptime.
  destruct (bill_of_user st id user_id) as [bill|] eqn:Hbill; [|done].
  apply bill_of_user_Some in Hbill as [Hrow Hown].
  destruct (Z.leb_spec (default (Bill.amount bill) (BillPatch.amount data)) 0)
    as [|Hpos]; [done|].
  destruct (BillPatch.due_date data) as [s|]; [|done].
  destruct (datetime.strptime_str s) as [d|] eqn:Hdate; [|done].
  simpl. destruct (datetime.ltb d now) eqn:Hfuture; [done|].
  simpl. intros _. exists bill, s, d. rewrite Hown. by split_and!.
Qed.

Lemma update_bill_success_witness :
  ∃ bill s d,
    bills Sample.with_bill !! 1 = Some bill
    ∧ Bill.user_id bill = Sample.alice
    ∧ BillPatch.due_date Scenario.postpone_bill = Some s
    ∧ datetime.strptime_str s = Some d
    ∧ datetime.ltb d Sample.noon = false
    ∧ 0 < default (Bill.amount bill) (BillPatch.amount Scenario.postpone_bill)
    ∧ (update_bill 1 Sample.alice Scenario.postpone_bill Sample.noon
         Sample.with_bill).2
      = set_bills
          (<[1 := Bill.mk Sample.alice
                    (default (Bill.biller_name bill)
                       (BillPatch.biller_name Scenario.postpone_bill))
                    (datetime.date d)
                    (default (Bill.amount bill)
                       (BillPatch.amount Scenario.postpone_bill))
                    (Bill.account_id bill)]> (bills Sample.with_bill))
          Sample.with_bill.
Proof.
  apply (update_bill_success 1 Sample.alice Scenario.postpone_bill Sample.noon
           Sample.with_bill).
  reflexivity.
Defined.

(** ** Budgets *)

(** [strptime] with the format [%Y-%m-%d] yields midnight. *)
Lemma strptime_str_midnight s d :
  datetime.strptime_str s = Some d →
  datetime.hour d = 0 ∧ datetime.minute d = 0 ∧ datetime.second d = 0
  ∧ datetime.microsecond d = 0.
Proof.
  unfold datetime.strptime_str.
  destruct (datetime.fields s) as [[[y m] dd]|]; simpl; [|done].
  case_match; [|done]. by intros [= <-].
Qed.

(** Two midnights in order are two dates in order. *)
Lemma midnight_range s e ds de :
  datetime.strptime_str s = Some ds →
  datetime.strptime_str e = Some de →
  datetime.gtb ds de = false →
  date_leb (datetime.date ds) (datetime.date de) = true.
Proof.
  intros (Hh & Hm & Hs & Hu)%strptime_str_midnight
         (Hh' & Hm' & Hs' & Hu')%strptime_str_midnight.
  unfold datetime.gtb, datetime.ltb, datetime.compare, date_leb.
  destruct ds as [y1 m1 d1 ? ? ? ?], de as [y2 m2 d2 ? ? ? ?]. simpl in *. subst.
  rewrite (Z.compare_antisym y1 y2), (Z.compare_antisym m1 m2),
    (Z.compare_antisym d1 d2).
  by destruct (y1 ?= y2), (m1 ?= m2), (d1 ?= d2).
Qed.

(** The outcome of [create_budget]: nothing is written, or the request
    passed every check and the budget is appended. *)
Lemma create_budget_cases user_id data now st :
  ((create_budget user_id data now st).1 ≠ Spec.BudgetCreated
   ∧ (create_budget user_id data now st).2 = st)
  ∨ ∃ ds de,
      datetime.strptime_str (NewBudget.start_date data) = Some ds
      ∧ datetime.strptime_str (NewBudget.end_date data) = Some de
      ∧ 0 < NewBudget.amount data
      ∧ datetime.ltb ds now = false
      ∧ datetime.gtb ds de = false
      ∧ create_budget user_id data now st
        = (Spec.BudgetCreated,
           mkdb (accounts st) (transactions st)
             (categories (get_or_create_category (NewBudget.name data) st).2)
             (budgets st ++
                [Budget.mk (next_row (budgets st)) user_id (NewBudget.name data)
                   (NewBudget.amount data) (datetime.date ds) (datetime.date de)])
             (bills st)).
Proof.
  unfold create_budget, strptime.
  destruct (Z.leb_spec (NewBudget.amount data) 0) as [|Hpos]; [by left|].
  destruct (datetime.strptime_str (NewBudget.start_date data)) as [ds|];
    [|by left].
  destruct (datetime.strptime_str (NewBudget.end_date data)) as [de|];
    [|by left].
  destruct (datetime.ltb ds now) eqn:Hfuture; [by left|].
  destruct (datetime.gtb ds de) eqn:Hrange; [by left|].
  right. exists ds, de. split_and!; try done.
  pose proof (get_or_create_category_spec (NewBudget.name data) st) as Hspec.
  destruct (get_or_create_category_frame (NewBudget.name data) st)
    as (Ha & Ht & Hb & Hbills).
  destruct (get_or_create_category (NewBudget.name data) st) as [category st1].
  destruct Hspec as (-> & _). simpl in *. by rewrite Ha, Ht, Hb, Hbills.
Qed.

(** The outcome of [update_budget]: nothing is written, or the request
    named both dates, passed every check, and the row is rewritten. *)
Lemma update_budget_cases id user_id data now st :
  ((update_budget id user_id data now st).1
   ≠ Response (Message "Budget updated successfully") 200
   ∧ (update_budget id user_id data now st).2 = st)
  ∨ ∃ i budget s e ds de,
      budget_of_user st id user_id = Some (i, budget)
      ∧ budgets st !! i = Some budget
      ∧ Budget.id budget = id
      ∧ Budget.user_id budget = user_id
      ∧ BudgetPatch.start_date data = Some s
      ∧ BudgetPatch.end_date data = Some e
      ∧ datetime.strptime_str s = Some ds
      ∧ datetime.strptime_str e = Some de
      ∧ 0 < default (Budget.amount budget) (BudgetPatch.amount data)
      ∧ datetime.ltb ds now = false
      ∧ datetime.gtb ds de = false
      ∧ update_budget id user_id data now st
        = (Response (Message "Budget updated successfully") 200,
           mkdb (accounts st) (transactions st)
             (match BudgetPatch.name data with
              | Some name => categories (get_or_create_category name st).2
              | None => categories st
              end)
             (<[i := Budget.mk id user_id
                       (default (Budget.name budget) (BudgetPatch.name data))
                       (default (Budget.amount budget) (BudgetPatch.amount data))
                       (datetime.date ds) (datetime.date de)]> (budgets st))
             (bills st)).
Proof.
  unfold update_budget, strptime.
  destruct (budget_of_user st id user_id) as [[i budget]|] eqn:Hfound; [|by left].
  destruct (budget_of_user_Some _ _ _ _ _ Hfound) as (Hrow & Hid & Hown).
  destruct (Z.leb_spec (default (Budget.amount budget) (BudgetPatch.amount data)) 0)
    as [|Hpos]; [by left|].
  destruct (BudgetPatch.start_date data) as [s|]; [|by left].
  destruct (datetime.strptime_str s) as [ds|] eqn:Hs; [|by left].
  destruct (BudgetPatch.end_date data) as [e|]; [|by left].
  destruct (datetime.strptime_str e) as [de|] eqn:He; [|by left].
  destruct (datetime.ltb ds now) eqn:Hfuture; [by left|].
  destruct (datetime.gtb ds de) eqn:Hrange; [by left|].
  right. exists i, budget, s, e, ds, de. rewrite Hid, Hown.
  split_and!; try done.
  destruct (BudgetPatch.name data) as [name|]; simpl; [|done].
  by destruct (get_or_create_category_frame name st) as (-> & -> & -> & ->).
Qed.

(** X12. [update_budget] cannot keep a stored date: for a budget of the
    caller and a merged amount above zero, a request that names no
    [start_date], or names a well-formed [start_date] and no
    [end_date], is not answered; [strptime] raises [TypeError] on the
    date of the row, and nothing is written. *)
Theorem update_budget_without_dates id user_id data now st i budget :
  budget_of_user st id user_id = Some (i, budget) →
  0 < default (Budget.amount budget) (BudgetPatch.amount data) →
  BudgetPatch.start_date data = None
  ∨ (BudgetPatch.end_date data = None
     ∧ ∃ s ds, BudgetPatch.start_date data = Some s
               ∧ datetime.strptime_str s = Some ds) →
  update_budget id user_id data now st = (Raised TypeError, st).
Proof.
  intros Hfound Hpos Hdates. unfold update_budget, strptime. rewrite Hfound.
  destruct (Z.leb_spec (default (Budget.amount budget) (BudgetPatch.amount data)) 0);
    [lia|].
  destruct Hdates as [->|(-> & s & ds & -> & ->)]; done.
Qed.

Lemma update_budget_without_dates_witness :
  update_budget 1 Sample.alice Scenario.raise_travel Sample.noon
    Scenario.with_budget
  = (Raised TypeError, Scenario.with_budget).
Proof.
  apply (update_budget_without_dates 1 Sample.alice Scenario.raise_travel
           Sample.noon Scenario.with_budget 0%nat
           (Budget.mk 1 Sample.alice "Travel" 120000
              (date.mk 2025 1 1) (date.mk 2025 12 31))).
  - reflexivity.
  - reflexivity.
  - by left.
Defined.

(** X13. When [update_budget] answers "Budget updated successfully", the
    budget is one of the caller, the request named a start and an end
    that are calendar dates, the start is not before the clock reading
    and not after the end, and the merged amount is above zero.  The row
    keeps its place, id and user and takes the name, amount and dates of
    the request; every other budget, and every account, transaction and
    bill, is as before; the categories of before are kept in place, and
    a name the request gives is the name of a category afterwards. *)
Theorem update_budget_success id user_id data now st :
  (update_budget id user_id data now st).1
  = Response (Message "Budget updated successfully") 200 →
  ∃ i budget s e ds de,
    budgets st !! i = Some budget
    ∧ Budget.id budget = id ∧ Budget.user_id budget = user_id
    ∧ BudgetPatch.start_date data = Some s ∧ datetime.strptime_str s = Some ds
    ∧ BudgetPatch.end_date data = Some e ∧ datetime.strptime_str e = Some de
    ∧ datetime.ltb ds now = false ∧ datetime.gtb ds de = false
    ∧ 0 < default (Budget.amount budget) (BudgetPatch.amount data)
    ∧ budgets (update_budget id user_id data now st).2
      = <[i := Budget.mk id user_id
                 (default (Budget.name budget) (BudgetPatch.name data))
                 (default (Budget.amount budget) (BudgetPatch.amount data))
                 (datetime.date ds) (datetime.date de)]> (budgets st)
    ∧ accounts (update_budget id user_id data now st).2 = accounts st
    ∧ transactions (update_budget id user_id data now st).2 = transactions st
    ∧ bills (update_budget id user_id data now st).2 = bills st
    ∧ categories st `prefix_of` categories (update_budget id user_id data now st).2
    ∧ (∀ name, BudgetPatch.name data = Some name →
         name ∈ (TransactionCategory.name <$>
                   categories (update_budget id user_id data now st).2)).
Proof.
  intros Hok.
  destruct (update_budget_cases id user_id data now st)
    as [[Hno _]|(i & budget & s & e & ds & de & _ & Hrow & Hid & Hown & Hs & He
                 & Hds & Hde & Hpos & Hfuture & Hrange & Hrun)]; [done|].
  exists i, budget, s, e, ds, de. rewrite Hrun. simpl. split_and!; try done.
  - destruct (BudgetPatch.name data) as [name|]; [|done].
    pose proof (get_or_create_category_spec name st) as Hspec.
    destruct (get_or_create_category name st) as [category st1].
    by destruct Hspec as (_ & _ & _ & _ & Hprefix & _).
  - intros name ->.
    pose proof (get_or_create_category_spec name st) as Hspec.
    destruct (get_or_create_category name st) as [category st1].
    destruct Hspec as (<- & Hin & _). simpl. by apply list_elem_of_fmap_2.
Qed.

Lemma update_budget_success_witness :
  ∃ i budget s e ds de,
    budgets Scenario.with_budget !! i = Some budget
    ∧ Budget.id budget = 1 ∧ Budget.user_id budget = Sample.alice
    ∧ BudgetPatch.start_date Scenario.move_travel = Some s
    ∧ datetime.strptime_str s = Some ds
    ∧ BudgetPatch.end_date Scenario.move_travel = Some e
    ∧ datetime.strptime_str e = Some de
    ∧ datetime.ltb ds Sample.noon = false ∧ datetime.gtb ds de = false
    ∧ 0 < default (Budget.amount budget) (BudgetPatch.amount Scenario.move_travel)
    ∧ budgets (update_budget 1 Sample.alice Scenario.move_travel Sample.noon
                 Scenario.with_budget).2
      = <[i := Budget.mk 1 Sample.alice
                 (default (Budget.name budget)
                    (BudgetPatch.name Scenario.move_travel))
                 (default (Budget.amount budget)
                    (BudgetPatch.amount Scenario.move_travel))
                 (datetime.date ds) (datetime.date de)]>
          (budgets Scenario.with_budget)
    ∧ accounts (update_budget 1 Sample.alice Scenario.move_travel Sample.noon
                  Scenario.with_budget).2 = accounts Scenario.with_budget
    ∧ transactions (update_budget 1 Sample.alice Scenario.move_travel Sample.noon
                      Scenario.with_budget).2 = transactions Scenario.with_budget
    ∧ bills (update_budget 1 Sample.alice Scenario.move_travel Sample.noon
               Scenario.with_budget).2 = bills Scenario.with_budget
    ∧ categories Scenario.with_budget
      `prefix_of` categories (update_budget 1 Sample.alice Scenario.move_travel
                                Sample.noon Scenario.with_budget).2
    ∧ (∀ name, BudgetPatch.name Scenario.move_travel = Some name →
         name ∈ (TransactionCategory.name <$>
                   categories (update_budget 1 Sample.alice Scenario.move_travel
                                 Sample.noon Scenario.with_budget).2)).
Proof.
  apply (update_budget_success 1 Sample.alice Scenario.move_travel Sample.noon
           Scenario.with_budget).
  reflexivity.
Defined.

(** ** What every stored budget and category satisfies *)

Lemma get_or_create_category_ids name st :
  (∀ i c, categories st !! i = Some c → TransactionCategory.id c = Z.of_nat i + 1) →
  ∀ i c, categories (get_or_create_category name st).2 !! i = Some c →
         TransactionCategory.id c = Z.of_nat i + 1.
Proof.
  intros Hids i c. unfold get_or_create_category.
  destruct (category_by_name st name); simpl; [apply Hids|].
  intros [[_ Hold]|[-> <-]]%lookup_snoc_Some; [by apply Hids|].
  simpl. unfold next_row. lia.
Qed.

Lemma get_or_create_category_I5 name st :
  Spec.I5 st →
  NoDup (TransactionCategory.name <$> categories (get_or_create_category name st).2)
  ∧ name ∈ (TransactionCategory.name <$> categories (get_or_create_category name st).2)
  ∧ ∀ b, b ∈ budgets st →
         Budget.name b
         ∈ (TransactionCategory.name <$> categories (get_or_create_category name st).2).
Proof.
  intros [Hnodup Hnames].
  pose proof (get_or_create_category_spec name st) as Hspec.
  destruct (get_or_create_category name st) as [category st1].
  destruct Hspec as (<- & Hin & _ & Hkeep & [more Hmore] & _). simpl.
  split_and!; [by apply Hkeep|by apply list_elem_of_fmap_2|].
  intros b Hb. rewrite Hmore, fmap_app. apply elem_of_app. left. by apply Hnames.
Qed.

Lemma create_budget_planner user_id data now st :
  planner_sound st → planner_sound (create_budget user_id data now st).2.
Proof.
  intros (HI5 & Hrows & Hcats).
  destruct (create_budget_cases user_id data now st)
    as [[_ ->]|(ds & de & Hs & He & _ & _ & Hrange & ->)]; [done|].
  destruct (get_or_create_category_I5 (NewBudget.name data) st HI5)
    as (Hnodup & Hname & Hold).
  simpl. split_and!.
  - split; simpl; [done|].
    intros b [Hb|Hb%list_elem_of_singleton]%elem_of_app; [by apply Hold|].
    by subst.
  - simpl. intros i b [[_ Hb]|[-> <-]]%lookup_snoc_Some; [by apply Hrows|].
    simpl. split; [unfold next_row; lia|].
    by apply (midnight_range (NewBudget.start_date data) (NewBudget.end_date data)).
  - simpl. by apply get_or_create_category_ids.
Qed.

Lemma update_budget_planner id user_id data now st :
  planner_sound st → planner_sound (update_budget id user_id data now st).2.
Proof.
  intros (HI5 & Hrows & Hcats).
  destruct (update_budget_cases id user_id data now st)
    as [[_ ->]|(i & budget & s & e & ds & de & _ & Hrow & Hid & Hown & _ & _
                & Hs & He & _ & _ & Hrange & ->)]; [done|].
  destruct (Hrows i budget Hrow) as (Hplace & _).
  assert (i < length (budgets st))%nat as Hlen by by eapply lookup_lt_Some.
  simpl. split_and!.
  - destruct (BudgetPatch.name data) as [name|]; simpl.
    + destruct (get_or_create_category_I5 name st HI5) as (Hnodup & Hname & Hold).
      split; simpl; [done|].
      intros b (j & Hb)%list_elem_of_lookup.
      apply list_lookup_insert_Some in Hb as [(_ & <- & _)|[_ Hb]]; [done|].
      apply Hold. by eapply list_elem_of_lookup_2.
    + destruct HI5 as [Hnodup Hnames]. split; simpl; [done|].
      intros b (j & Hb)%list_elem_of_lookup.
      apply list_lookup_insert_Some in Hb as [(_ & <- & _)|[_ Hb]].
      * simpl. apply Hnames. by eapply list_elem_of_lookup_2.
      * apply Hnames. by eapply list_elem_of_lookup_2.
  - simpl. intros j b Hb.
    apply list_lookup_insert_Some in Hb as [(<- & <- & _)|[_ Hb]]; [|by apply Hrows].
    simpl. split; [lia|by apply (midnight_range s e)].
  - simpl. destruct (BudgetPatch.name data) as [name|]; [|done].
    by apply get_or_create_category_ids.
Qed.

Lemma frame_planner (st st' : database) :
  categories st' = categories st →
  budgets st' = budgets st →
  planner_sound st → planner_sound st'.
Proof.
  intros Hc Hb. unfold planner_sound, Spec.I5. by rewrite Hc, Hb.
Qed.

Lemma execute_planner c st :
  planner_sound st → planner_sound (execute c st).2.
Proof.
  destruct c as [[user_id data utcnow|id0 user_id data utcnow|id0 user_id
                 |user_id data utcnow|user_id data now|user_id data now
                 |id0 user_id data now]
                |id0 user_id data now|id0 user_id]; simpl.
  - destruct (create_account_frame user_id data utcnow st) as (_ & Hc & Hb & _).
    by apply frame_planner.
  - destruct (update_account_tables id0 user_id data utcnow st) as (_ & Hc & Hb & _).
    by apply frame_planner.
  - destruct (delete_account_frame id0 user_id st) as (_ & Hc & Hb & _).
    by apply frame_planner.
  - destruct (create_transaction_frame user_id data utcnow st) as (Hc & Hb & _).
    by apply frame_planner.
  - apply create_budget_planner.
  - destruct (create_bill_frame user_id data now st) as (_ & _ & Hc & Hb).
    by apply frame_planner.
  - destruct (update_bill_frame id0 user_id data now st) as (_ & _ & Hc & Hb).
    by apply frame_planner.
  - apply update_budget_planner.
  - destruct (delete_bill_frame id0 user_id st) as (_ & _ & Hc & Hb).
    by apply frame_planner.
Qed.

(** Rows that bear the number of their place bear different numbers. *)
Lemma NoDup_by_place {A} (f : A → Z) (l : list A) :
  (∀ i x, l !! i = Some x → f x = Z.of_nat i + 1) → NoDup (f <$> l).
Proof.
  intros Hplace. apply NoDup_alt. intros i j x Hi Hj.
  apply list_lookup_fmap_Some in Hi as (xi & Hfi & Hi).
  apply list_lookup_fmap_Some in Hj as (xj & Hfj & Hj).
  pose proof (Hplace i xi Hi). pose proof (Hplace j xj Hj). lia.
Qed.

Lemma served_planned : served Scenario.planned.
Proof.
  apply (served_step Scenario.with_budget
           (Request (PostBill Sample.alice Sample.electricity Sample.noon))).
  apply (served_step Sample.two_accounts
           (Request (PostBudget Sample.alice Scenario.travel Sample.noon))).
  apply (served_step Sample.one_account
           (Request (PostAccount Sample.bob Sample.open_b Sample.morning))).
  apply (served_step empty_database
           (Request (PostAccount Sample.alice Sample.open_a Sample.morning))).
  apply served_empty.
Defined.

(** X14. Whatever commands the service has executed: category names are
    unique, no two categories share an id, no two budgets share an id,
    and every budget bears the name of a category and has a start date
    not after its end date. *)
Theorem served_planner_sound st :
  served st →
  NoDup (TransactionCategory.name <$> categories st)
  ∧ NoDup (TransactionCategory.id <$> categories st)
  ∧ NoDup (Budget.id <$> budgets st)
  ∧ (∀ b, b ∈ budgets st →
       Budget.name b ∈ (TransactionCategory.name <$> categories st)
       ∧ date_leb (Budget.start_date b) (Budget.end_date b) = true).
Proof.
  intros Hserved.
  assert (planner_sound st) as ([Hnodup Hnames] & Hrows & Hcats).
  { induction Hserved as [|st c _ IH]; [|by apply execute_planner].
    unfold planner_sound, Spec.I5. simpl. split_and!; try done.
    - apply NoDup_nil_2.
    - by intros b Hb%elem_of_nil. }
  split_and!; [done| | |].
  - by apply NoDup_by_place.
  - apply NoDup_by_place. intros i b Hb. by apply Hrows.
  - intros b Hb. split; [by apply Hnames|].
    apply list_elem_of_lookup in Hb as (i & Hb). by apply (Hrows i).
Qed.

Lemma served_planner_sound_witness :
  NoDup (TransactionCategory.name <$> categories Scenario.planned)
  ∧ NoDup (TransactionCategory.id <$> categories Scenario.planned)
  ∧ NoDup (Budget.id <$> budgets Scenario.planned)
  ∧ (∀ b, b ∈ budgets Scenario.planned →
       Budget.name b ∈ (TransactionCategory.name <$> categories Scenario.planned)
       ∧ date_leb (Budget.start_date b) (Budget.end_date b) = true).
Proof. apply served_planner_sound. apply served_planned. Defined.

Lemma get_or_create_category_listing name st :
  categories st `prefix_of` categories (get_or_create_category name st).2
  ∧ name ∈ (TransactionCategory.name <$> categories (get_or_create_category name st).2)
  ∧ (name ∈ (TransactionCategory.name <$> categories st) →
     categories (get_or_create_category name st).2 = categories st)
  ∧ (name ∉ (TransactionCategory.name <$> categories st) →
     categories (get_or_create_category name st).2
     = categories st ++ [TransactionCategory.mk (next_row (categories st)) name]).
Proof.
  unfold get_or_create_category.
  destruct (category_by_name st name) as [c|] eqn:Hc; simpl.
  - apply category_by_name_Some in Hc as [Hin <-].
    split_and!; [done|by apply list_elem_of_fmap_2|done|].
    intros Hnot. destruct Hnot. by apply list_elem_of_fmap_2.
  - apply category_by_name_None in Hc.
    split_and!; [by apply prefix_app_r| |done|done].
    rewrite fmap_app. apply elem_of_app. right. simpl. by left.
Qed.

(** X15. A created budget can be read back: after a successful
    [create_budget] the listing of the caller is the one of before
    followed by the new budget, with the next id, the name and amount
    of the request and the two dates; the listing of every other user
    is the one of before; and the name is listed among the categories,
    which are the ones of before when the name was one of them and
    otherwise the ones of before followed by a new category of that
    name. *)
Theorem create_budget_then_read user_id data now st :
  (create_budget user_id data now st).1 = Spec.BudgetCreated →
  ∃ ds de,
    datetime.strptime_str (NewBudget.start_date data) = Some ds
    ∧ datetime.strptime_str (NewBudget.end_date data) = Some de
    ∧ get_budgets user_id (create_budget user_id data now st).2
      = get_budgets user_id st
        ++ [Budget.mk (next_row (budgets st)) user_id (NewBudget.name data)
              (NewBudget.amount data) (datetime.date ds) (datetime.date de)]
    ∧ (∀ other, other ≠ user_id →
         get_budgets other (create_budget user_id data now st).2
         = get_budgets other st)
    ∧ NewBudget.name data
      ∈ (TransactionCategory.name <$>
           get_transaction_categories (create_budget user_id data now st).2)
    ∧ (NewBudget.name data
       ∈ (TransactionCategory.name <$> get_transaction_categories st) →
       get_transaction_categories (create_budget user_id data now st).2
       = get_transaction_categories st)
    ∧ (NewBudget.name data
       ∉ (TransactionCategory.name <$> get_transaction_categories st) →
       get_transaction_categories (create_budget user_id data now st).2
       = get_transaction_categories st
         ++ [TransactionCategory.mk (next_row (categories st))
               (NewBudget.name data)]).
Proof.
  intros Hok.
  destruct (create_budget_cases user_id data now st)
    as [[Hno _]|(ds & de & Hs & He & _ & _ & _ & Hrun)]; [done|].
  destruct (get_or_create_category_listing (NewBudget.name data) st)
    as (_ & Hin & Hsame & Hnew).
  exists ds, de. rewrite Hrun. unfold get_budgets, get_transaction_categories.
  simpl. split_and!; try done.
  - rewrite filter_app. by rewrite filter_cons_True, filter_nil.
  - intros other Hother. rewrite filter_app.
    rewrite filter_cons_False, filter_nil by (simpl; congruence).
    by rewrite app_nil_r.
Qed.

Lemma create_budget_then_read_witness :
  ∃ ds de,
    datetime.strptime_str (NewBudget.start_date Scenario.travel) = Some ds
    ∧ datetime.strptime_str (NewBudget.end_date Scenario.travel) = Some de
    ∧ get_budgets Sample.alice Scenario.with_budget
      = get_budgets Sample.alice Sample.two_accounts
        ++ [Budget.mk (next_row (budgets Sample.two_accounts)) Sample.alice
              (NewBudget.name Scenario.travel) (NewBudget.amount Scenario.travel)
              (datetime.date ds) (datetime.date de)]
    ∧ (∀ other, other ≠ Sample.alice →
         get_budgets other Scenario.with_budget
         = get_budgets other Sample.two_accounts)
    ∧ NewBudget.name Scenario.travel
      ∈ (TransactionCategory.name <$>
           get_transaction_categories Scenario.with_budget)
    ∧ (NewBudget.name Scenario.travel
       ∈ (TransactionCategory.name <$>
            get_transaction_categories Sample.two_accounts) →
       get_transaction_categories Scenario.with_budget
       = get_transaction_categories Sample.two_accounts)
    ∧ (NewBudget.name Scenario.travel
       ∉ (TransactionCategory.name <$>
            get_transaction_categories Sample.two_accounts) →
       get_transaction_categories Scenario.with_budget
       = get_transaction_categories Sample.two_accounts
         ++ [TransactionCategory.mk (next_row (categories Sample.two_accounts))
               (NewBudget.name Scenario.travel)]).
Proof.
  apply (create_budget_then_read Sample.alice Scenario.travel Sample.noon
           Sample.two_accounts).
  reflexivity.
Defined.

(** X16. Three tables only grow: whatever the command, the transactions
    of before are the first transactions afterwards, unchanged; the
    categories of before are the first categories afterwards,
    unchanged; and every budget of before is still in its place with
    its id and its user.  No handler deletes or rewrites a transaction
    or a category, and none deletes a budget. *)
Theorem execute_append_only c st :
  transactions st `prefix_of` transactions (execute c st).2
  ∧ categories st `prefix_of` categories (execute c st).2
  ∧ (∀ i b, budgets st !! i = Some b →
       ∃ b', budgets (execute c st).2 !! i = Some b'
             ∧ Budget.id b' = Budget.id b
             ∧ Budget.user_id b' = Budget.user_id b).
Proof.
  split.
  { destruct (execute_transactions c st)
      as [->|(F & T & n & type & description & utcnow & _ & _ & ->)];
      [done|by apply prefix_app_r]. }
  destruct c as [[user_id data utcnow|id0 user_id data utcnow|id0 user_id
                 |user_id data utcnow|user_id data now|user_id data now
                 |id0 user_id data now]
                |id0 user_id data now|id0 user_id]; simpl.
  - destruct (create_account_frame user_id data utcnow st) as (_ & -> & -> & _).
    split; [done|]. intros i b Hb. by exists b.
  - destruct (update_account_tables id0 user_id data utcnow st) as (_ & -> & -> & _).
    split; [done|]. intros i b Hb. by exists b.
  - destruct (delete_account_frame id0 user_id st) as (_ & -> & -> & _).
    split; [done|]. intros i b Hb. by exists b.
  - destruct (create_transaction_frame user_id data utcnow st) as (-> & -> & _).
    split; [done|]. intros i b Hb. by exists b.
  - destruct (create_budget_cases user_id data now st)
      as [[_ ->]|(ds & de & _ & _ & _ & _ & _ & ->)].
    + split; [done|]. intros i b Hb. by exists b.
    + simpl. split.
      * by destruct (get_or_create_category_listing (NewBudget.name data) st).
      * intros i b Hb. exists b. split; [|done]. by apply lookup_app_l_Some.
  - destruct (create_bill_frame user_id data now st) as (_ & _ & -> & ->).
    split; [done|]. intros i b Hb. by exists b.
  - destruct (update_bill_frame id0 user_id data now st) as (_ & _ & -> & ->).
    split; [done|]. intros i b Hb. by exists b.
  - destruct (update_budget_cases id0 user_id data now st)
      as [[_ ->]|(i & budget & s & e & ds & de & _ & Hrow & Hid & Hown & _ & _
                  & _ & _ & _ & _ & _ & ->)].
    + split; [done|]. intros j b Hb. by exists b.
    + simpl. split.
      * destruct (BudgetPatch.name data) as [name|]; [|done].
        by destruct (get_or_create_category_listing name st).
      * intros j b Hb. destruct (decide (i = j)) as [<-|Hne].
        -- eexists. rewrite list_lookup_insert_eq by by eapply lookup_lt_Some.
           split; [done|]. simpl. by simplify_eq.
        -- exists b. by rewrite list_lookup_insert_ne.
  - destruct (delete_bill_frame id0 user_id st) as (_ & _ & -> & ->).
    split; [done|]. intros i b Hb. by exists b.
Qed.

(** ** Reading one transaction *)

(** X18. [get_transaction] answers no transaction and no 404: its join
    with [Account] is the one of [get_transactions], over two foreign
    keys and with no ON clause, so whatever the id, the user and the
    database the request ends in [AmbiguousForeignKeysError]. *)
Theorem get_transaction_join_ambiguous id user_id st :
  get_transaction id user_id st = inl (Raised AmbiguousForeignKeysError)
  ∧ (∀ tx, get_transaction id user_id st ≠ inr tx)
  ∧ get_transaction id user_id st
    ≠ inl (Response (Error "Transaction not found") 404).
Proof.
  assert (join_on Transaction.account_keys = inl AmbiguousForeignKeysError) as Hjoin.
  { reflexivity. }
  unfold get_transaction. rewrite Hjoin. by split_and!.
Qed.

(** ** Requests that are sent twice *)

Lemma onupdate_same now a : Account.onupdate now a a = a.
Proof. unfold Account.onupdate. by rewrite decide_True. Qed.

(** The row a successful update leaves already has the values of the
    body. *)
Lemma patched_again patch now unequal loaded :
  patched patch (Account.flush now unequal loaded (patched patch loaded))
  = Account.flush now unequal loaded (patched patch loaded).
Proof.
  unfold Account.flush, Account.onupdate, patched, Account.set_updated_at.
  destruct patch as [[ty|] [b|] other], loaded, unequal; simpl;
    try case_decide; done.
Qed.

(** The outcome of [update_account]: a refusal, which no clock reading
    changes and which writes nothing, or a commit of the patched row,
    which the same body gets on every database where the account is the
    caller's. *)
Lemma update_account_cases id user_id data utcnow st :
  ((update_account id user_id data utcnow st).1 ≠ Spec.AccountUpdated
   ∧ (update_account id user_id data utcnow st).2 = st
   ∧ ∀ later, update_account id user_id data later st
              = update_account id user_id data utcnow st)
  ∨ ∃ patch loaded,
      data = Some patch
      ∧ account_of_user st id user_id = Some loaded
      ∧ (∀ later st' loaded',
           account_of_user st' id user_id = Some loaded' →
           update_account id user_id data later st'
           = (Spec.AccountUpdated,
              set_accounts
                (<[id := Account.flush later (balance_unequal patch loaded') loaded'
                           (patched patch loaded')]> (accounts st')) st'))
      ∧ update_account id user_id data utcnow st
        = (Spec.AccountUpdated,
           set_accounts
             (<[id := Account.flush utcnow (balance_unequal patch loaded) loaded
                        (patched patch loaded)]> (accounts st)) st).
Proof.
  unfold update_account.
  destruct (account_of_user st id user_id) as [loaded|]; [|by left].
  destruct data as [patch|]; [|by left].
  destruct (AccountPatch.is_empty patch) eqn:Hempty; [by left|].
  destruct (AccountPatch.balance patch) as [b|] eqn:Hb.
  - destruct (Z.ltb_spec b 0); [by left|].
    right. exists patch, loaded. split_and!; try done.
    + intros later st' loaded' ->. unfold patched, balance_unequal. by rewrite Hb.
    + unfold patched, balance_unequal. by rewrite Hb.
  - right. exists patch, loaded. split_and!; try done.
    + intros later st' loaded' ->. unfold patched, balance_unequal. by rewrite Hb.
    + unfold patched, balance_unequal. by rewrite Hb.
Qed.

(** X20. Sending a [PUT /accounts/<id>] a second time with the same body,
    at whatever clock reading: the answer is the one of the first time,
    and the database is as the first request left it, but for one
    thing.  When the body names a balance that is no whole number of
    quarters of a unit, the value sent never compares equal to the
    stored amount, so the row is written again and its [updated_at]
    becomes the time of the second request.  With no balance in the
    body, or a balance of whole quarters (every JSON integer is one),
    the second request changes nothing. *)
Theorem update_account_repeated id user_id data utcnow later st :
  let first := update_account id user_id data utcnow st in
  let second := update_account id user_id data later first.2 in
  second.1 = first.1
  ∧ (accounts second.2 = accounts first.2
     ∨ ∃ patch b a,
         data = Some patch
         ∧ AccountPatch.balance patch = Some b
         ∧ b mod 25 ≠ 0
         ∧ accounts first.2 !! id = Some a
         ∧ accounts second.2
           = <[id := Account.set_updated_at later a]> (accounts first.2))
  ∧ (∀ patch b a,
       data = Some patch → AccountPatch.balance patch = Some b → b mod 25 ≠ 0 →
       first.1 = Spec.AccountUpdated →
       accounts first.2 !! id = Some a →
       accounts second.2 !! id = Some (Account.set_updated_at later a))
  ∧ transactions second.2 = transactions first.2
  ∧ categories second.2 = categories first.2
  ∧ budgets second.2 = budgets first.2
  ∧ bills second.2 = bills first.2
  ∧ ((∀ patch b, data = Some patch → AccountPatch.balance patch = Some b →
                 b mod 25 = 0) →
     second = first).
Proof.
  cbv zeta.
  destruct (update_account_cases id user_id data utcnow st)
    as [(Hno & Hst & Hclock)|(patch & loaded & -> & Hloaded & Hagain & Hrun)].
  { rewrite Hst, Hclock, ?Hst. split_and!; try done. by left. }
  apply account_of_user_Some in Hloaded as [Hrow Hown].
  rewrite Hrun. cbn [fst snd].
  assert (patched patch
            (Account.flush utcnow (balance_unequal patch loaded) loaded
               (patched patch loaded))
          = Account.flush utcnow (balance_unequal patch loaded) loaded
              (patched patch loaded)) as Hpatched by apply patched_again.
  assert (Account.balance
            (Account.flush utcnow (balance_unequal patch loaded) loaded
               (patched patch loaded))
          = default (Account.balance loaded) (AccountPatch.balance patch)) as Hbal.
  { by rewrite flush_balance. }
  assert (Account.user_id
            (Account.flush utcnow (balance_unequal patch loaded) loaded
               (patched patch loaded)) = user_id) as Howner.
  { by rewrite flush_user_id. }
  set (row := Account.flush utcnow (balance_unequal patch loaded) loaded
                (patched patch loaded)) in *.
  clearbody row.
  rewrite (Hagain later _ row).
  2: { apply account_of_user_Some. simpl. by rewrite lookup_insert_eq. }
  rewrite Hpatched. unfold Account.flush. rewrite onupdate_same.
  unfold set_accounts. simpl. rewrite insert_insert_eq.
  destruct (balance_unequal patch row) eqn:Hunequal.
  - unfold balance_unequal in Hunequal.
    destruct (AccountPatch.balance patch) as [b|] eqn:Hb; [|done].
    simpl in Hbal. rewrite Hbal in Hunequal. apply negb_true_iff in Hunequal.
    assert (b mod 25 ≠ 0) as Hinexact.
    { intros Hmod. assert (same_decimal b b = true) as Htrue.
      { by apply same_decimal_true. }
      congruence. }
    split_and!; try done.
    + right. exists patch, b, row. split_and!; try done.
      * apply lookup_insert_eq.
      * by rewrite insert_insert_eq.
    + intros patch' b' a [= <-] Hb' _ _. rewrite !lookup_insert_eq.
      by intros [= <-].
    + intros Hexact. destruct Hinexact. by apply (Hexact patch b).
  - split_and!; try done; [by left|].
    intros patch' b a [= <-] Hb Hinexact _ _. exfalso.
    unfold balance_unequal in Hunequal. rewrite Hb in Hunequal, Hbal.
    simpl in Hbal. apply negb_false_iff, same_decimal_true in Hunequal. tauto.
Qed.

(** 19.99 sent twice: the second request changes no value and
    refreshes [updated_at]. *)
Example update_account_resend_inexact :
  let first := update_account 1 Sample.alice (Some Scenario.set_cents) Sample.noon
                 Sample.two_accounts in
  let second := update_account 1 Sample.alice (Some Scenario.set_cents)
                  Sample.evening first.2 in
  accounts first.2 !! 1
  = Some (Account.mk 1 "savings" "1234567890" 1999 Sample.morning Sample.noon)
  ∧ accounts second.2 !! 1
    = Some (Account.mk 1 "savings" "1234567890" 1999 Sample.morning Sample.evening).
Proof. split; reflexivity. Qed.

Lemma budget_of_user_insert st st' id user_id i b b' :
  budget_of_user st id user_id = Some (i, b) →
  Budget.id b' = id →
  Budget.user_id b' = user_id →
  budgets st' = <[i := b']> (budgets st) →
  budget_of_user st' id user_id = Some (i, b').
Proof.
  unfold budget_of_user. intros (Hi & _ & Hfirst)%list_find_Some Hid Hown ->.
  apply list_find_Some. split_and!.
  - apply list_lookup_insert_eq. by eapply lookup_lt_Some.
  - done.
  - done.
  - intros j y Hj Hlt. rewrite list_lookup_insert_ne in Hj by lia.
    by apply (Hfirst j).
Qed.

Lemma get_or_create_category_known name st :
  name ∈ (TransactionCategory.name <$> categories st) →
  (get_or_create_category name st).2 = st.
Proof.
  intros Hin. pose proof (get_or_create_category_spec name st) as Hspec.
  destruct (get_or_create_category name st) as [category st1].
  destruct Hspec as (_ & _ & Hsame & _). by apply Hsame.
Qed.

(** X21. Sending a successful [PUT /bills/<id>] a second time changes
    nothing more: after [update_bill] has answered "Bill updated
    successfully", the same request at any clock reading, whether it is
    accepted again or refused because the due date has passed, leaves
    the database as the first request left it. *)
Theorem update_bill_repeated id user_id data now later st :
  (update_bill id user_id data now st).1 = Spec.BillUpdated →
  (update_bill id user_id data later (update_bill id user_id data now st).2).2
  = (update_bill id user_id data now st).2.
Proof.
  unfold update_bill at 1 3 4. unfold strptime.
  destruct (bill_of_user st id user_id) as [bill|] eqn:Hbill; [|done].
  apply bill_of_user_Some in Hbill as [Hrow Hown].
  destruct (Z.leb_spec (default (Bill.amount bill) (BillPatch.amount data)) 0)
    as [|Hpos]; [done|].
  destruct (BillPatch.due_date data) as [s|] eqn:Hdue; [|done].
  destruct (datetime.strptime_str s) as [d|] eqn:Hdate; [|done].
  simpl. destruct (datetime.ltb d now); [done|].
  simpl. intros _. unfold update_bill, bill_of_user, strptime. simpl.
  rewrite lookup_insert_eq. simpl. rewrite decide_True by done.
  cbn [Bill.amount Bill.biller_name Bill.user_id Bill.account_id Bill.due_date].
  assert (default (default (Bill.amount bill) (BillPatch.amount data))
            (BillPatch.amount data)
          = default (Bill.amount bill) (BillPatch.amount data)) as ->.
  { by destruct (BillPatch.amount data). }
  assert (default (default (Bill.biller_name bill) (BillPatch.biller_name data))
            (BillPatch.biller_name data)
          = default (Bill.biller_name bill) (BillPatch.biller_name data)) as ->.
  { by destruct (BillPatch.biller_name data). }
  destruct (Z.leb_spec (default (Bill.amount bill) (BillPatch.amount data)) 0);
    [lia|].
  rewrite Hdue, Hdate. simpl. destruct (datetime.ltb d later); [done|].
  simpl. unfold set_bills. simpl. by rewrite insert_insert_eq.
Qed.

Lemma update_bill_repeated_witness :
  (update_bill 1 Sample.alice Scenario.postpone_bill Sample.evening
     (update_bill 1 Sample.alice Scenario.postpone_bill Sample.noon
        Sample.with_bill).2).2
  = (update_bill 1 Sample.alice Scenario.postpone_bill Sample.noon
       Sample.with_bill).2.
Proof.
  apply (update_bill_repeated 1 Sample.alice Scenario.postpone_bill Sample.noon
           Sample.evening Sample.with_bill).
  reflexivity.
Defined.

(** X22. Sending a successful [PUT /budgets/<id>] a second time changes
    nothing more: after [update_budget] has answered "Budget updated
    successfully", the same request at any clock reading, accepted or
    refused, leaves the database as the first request left it; the
    category of the name is found, not created again. *)
Theorem update_budget_repeated id user_id data now later st :
  (update_budget id user_id data now st).1
  = Response (Message "Budget updated successfully") 200 →
  (update_budget id user_id data later (update_budget id user_id data now st).2).2
  = (update_budget id user_id data now st).2.
Proof.
  intros Hok.
  destruct (update_budget_cases id user_id data now st)
    as [[Hno _]|(i & budget & s & e & ds & de & Hfound & Hrow & Hid & Hown
                 & Hs & He & Hds & Hde & Hpos & Hfuture & Hrange & Hrun)];
    [done|].
  rewrite Hrun. cbn [snd]. set (st1 := mkdb _ _ _ _ _).
  set (budget' := Budget.mk id user_id
                    (default (Budget.name budget) (BudgetPatch.name data))
                    (default (Budget.amount budget) (BudgetPatch.amount data))
                    (datetime.date ds) (datetime.date de)).
  assert (budget_of_user st1 id user_id = Some (i, budget')) as Hagain.
  { by apply (budget_of_user_insert st st1 id user_id i budget budget'). }
  unfold update_budget, strptime. rewrite Hagain, Hs, He, Hds, Hde.
  assert (default (Budget.amount budget') (BudgetPatch.amount data)
          = default (Budget.amount budget) (BudgetPatch.amount data)) as ->.
  { simpl. by destruct (BudgetPatch.amount data). }
  assert (default (Budget.name budget') (BudgetPatch.name data)
          = default (Budget.name budget) (BudgetPatch.name data)) as ->.
  { simpl. by destruct (BudgetPatch.name data). }
  destruct (Z.leb_spec (default (Budget.amount budget) (BudgetPatch.amount data)) 0);
    [lia|].
  destruct (datetime.ltb ds later); [done|]. rewrite Hrange.
  assert (match BudgetPatch.name data with
          | Some name => (get_or_create_category name st1).2
          | None => st1
          end = st1) as ->.
  { destruct (BudgetPatch.name data) as [name|]; [|done].
    apply get_or_create_category_known. subst st1. simpl.
    by destruct (get_or_create_category_listing name st) as (_ & Hin & _). }
  cbn [snd]. subst st1. simpl. by rewrite list_insert_insert_eq.
Qed.

Lemma update_budget_repeated_witness :
  (update_budget 1 Sample.alice Scenario.move_travel Sample.evening
     (update_budget 1 Sample.alice Scenario.move_travel Sample.noon
        Scenario.with_budget).2).2
  = (update_budget 1 Sample.alice Scenario.move_travel Sample.noon
       Scenario.with_budget).2.
Proof.
  apply (update_budget_repeated 1 Sample.alice Scenario.move_travel Sample.noon
           Sample.evening Scenario.with_budget).
  reflexivity.
Defined.
